(** * Warehouse economics: the calculation core of Sklad-testim

    A shallow embedding of [data_model.py] and [calculations.py].

    Numbers.  The Python code computes on [float]; the embedding computes on
    the rationals [Q], so every statement below is about the exact arithmetic
    the formulas denote (rounding is not modelled).  The literal [1e-9] is
    the rational 1/10^9.  Integer fields ([time_horizon], the Monte Carlo
    trial count and seed) are [Z].

    Exceptions.  Python raises instead of returning; a computation that may
    raise has type [result A].  A division raises [ZeroDivisionError] on a
    zero divisor and a subscript [d[k]] raises [KeyError] on a missing key,
    so "does not raise" is a theorem about the code, not a property of the
    encoding.

    Dictionaries are [gmap string Q]. *)

From stdpp Require Import base option gmap strings.
From Stdlib Require Import ZArith QArith Qabs Qpower Lqa Lia.

Local Open Scope Q_scope.

(** ** Python values and exceptions *)

Module Py.

Inductive exn : Type :=
| ZeroDivisionError
| KeyError (key : string)
| ValueError.

Inductive result (A : Type) : Type :=
| Ok (a : A)
| Raise (e : exn).
Arguments Ok {A} a.
Arguments Raise {A} e.

#[global] Instance result_ret : MRet result := fun A a => Ok a.
#[global] Instance result_bind : MBind result := fun A B f m =>
  match m with
  | Ok a => f a
  | Raise e => Raise e
  end.

Definition raises {A : Type} (m : result A) : Prop :=
  match m with
  | Ok _ => False
  | Raise _ => True
  end.

(** A [float]: the code builds [float('inf')] itself and receives [nan] from
    the numeric libraries. *)
Inductive float : Type :=
| Fin (q : Q)
| PosInf
| NaN.

(** [a / b] *)
Definition div (a b : Q) : result Q :=
  if Qeq_bool b 0 then Raise ZeroDivisionError else Ok (a / b).

(** [a < b], [a <= b], [a == b]; [a > b] is written [ltb b a]. *)
Definition ltb (a b : Q) : bool := negb (Qle_bool b a).
Definition leb (a b : Q) : bool := Qle_bool a b.
Definition eqb (a b : Q) : bool := Qeq_bool a b.

(** [d[k]] *)
Definition getitem (d : gmap string Q) (k : string) : result Q :=
  match d !! k with
  | Some v => Ok v
  | None => Raise (KeyError k)
  end.

(** [try: body / except Exception: handler] *)
Definition try_except {A : Type} (body : result A) (handler : exn -> result A)
  : result A :=
  match body with
  | Ok a => Ok a
  | Raise e => handler e
  end.

(** [max(a, b)]: the first argument unless the second is strictly larger. *)
Definition max (a b : Q) : Q := if ltb a b then b else a.

End Py.
Import Py.

Notation "a // b" := (Py.div a b) (at level 40, left associativity).

(** ** data_model.py *)

Module DataModel.

Record WarehouseParams : Type := {
  total_area : Q;
  rental_cost_per_m2 : Q;
  useful_area_ratio : Q;
  mode : string;
  storage_share : Q;
  loan_share : Q;
  vip_share : Q;
  short_term_share : Q;
  storage_area_manual : Q;
  loan_area_manual : Q;
  vip_area_manual : Q;
  short_term_area_manual : Q;
  storage_fee : Q;
  shelves_per_m2 : Q;
  short_term_daily_rate : Q;
  vip_extra_fee : Q;
  item_evaluation : Q;
  item_realization_markup : Q;
  average_item_value : Q;
  loan_interest_rate : Q;
  realization_share_storage : Q;
  realization_share_loan : Q;
  realization_share_vip : Q;
  realization_share_short_term : Q;
  storage_items_density : Q;
  loan_items_density : Q;
  vip_items_density : Q;
  short_term_items_density : Q;
  salary_expense : Q;
  miscellaneous_expenses : Q;
  depreciation_expense : Q;
  marketing_expenses : Q;
  insurance_expenses : Q;
  taxes : Q;
  utilities_expenses : Q;
  maintenance_expenses : Q;
  one_time_setup_cost : Q;
  one_time_equipment_cost : Q;
  one_time_other_costs : Q;
  one_time_legal_cost : Q;
  one_time_logistics_cost : Q;
  time_horizon : Z;
  monthly_rent_growth : Q;
  default_probability : Q;
  liquidity_factor : Q;
  safety_factor : Q;
  loan_grace_period : Z;
  monthly_income_growth : Q;
  monthly_expenses_growth : Q;
  forecast_method : string;
  monte_carlo_simulations : Z;
  monte_carlo_deviation : Q;
  monte_carlo_seed : Z;
  enable_ml_settings : bool;
  one_time_expenses : Q;
  usable_area : Q;
  storage_area : Q;
  loan_area : Q;
  vip_area : Q;
  short_term_area : Q;
  payback_period : Q
}.

(** The two values of [mode]; any string other than the first selects the
    manual branch of every [if params.mode == ...]. *)
Definition mode_auto : string := "Автоматический".
Definition mode_manual : string := "Ручной".

(** [params.one_time_expenses = v] *)
Definition set_one_time_expenses (v : Q) (p : WarehouseParams) : WarehouseParams :=
  let '(Build_WarehouseParams a1 a2 a3 a4 a5 a6 a7 a8 a9 a10 a11 a12 a13 a14
          a15 a16 a17 a18 a19 a20 a21 a22 a23 a24 a25 a26 a27 a28 a29 a30 a31
          a32 a33 a34 a35 a36 a37 a38 a39 a40 a41 a42 a43 a44 a45 a46 a47 a48
          a49 a50 a51 a52 a53 a54 _ b2 b3 b4 b5 b6 b7) := p in
  Build_WarehouseParams a1 a2 a3 a4 a5 a6 a7 a8 a9 a10 a11 a12 a13 a14
          a15 a16 a17 a18 a19 a20 a21 a22 a23 a24 a25 a26 a27 a28 a29 a30 a31
          a32 a33 a34 a35 a36 a37 a38 a39 a40 a41 a42 a43 a44 a45 a46 a47 a48
          a49 a50 a51 a52 a53 a54 v b2 b3 b4 b5 b6 b7.

(** The five attributes written by
    [for k, v in areas.items(): setattr(params, k, v)]. *)
Definition set_areas (u s l v t : Q) (p : WarehouseParams) : WarehouseParams :=
  let '(Build_WarehouseParams a1 a2 a3 a4 a5 a6 a7 a8 a9 a10 a11 a12 a13 a14
          a15 a16 a17 a18 a19 a20 a21 a22 a23 a24 a25 a26 a27 a28 a29 a30 a31
          a32 a33 a34 a35 a36 a37 a38 a39 a40 a41 a42 a43 a44 a45 a46 a47 a48
          a49 a50 a51 a52 a53 a54 b1 _ _ _ _ _ b7) := p in
  Build_WarehouseParams a1 a2 a3 a4 a5 a6 a7 a8 a9 a10 a11 a12 a13 a14
          a15 a16 a17 a18 a19 a20 a21 a22 a23 a24 a25 a26 a27 a28 a29 a30 a31
          a32 a33 a34 a35 a36 a37 a38 a39 a40 a41 a42 a43 a44 a45 a46 a47 a48
          a49 a50 a51 a52 a53 a54 b1 u s l v t b7.

(** The second component of the validator's result.  The four fixed
    messages are the source's strings; the last one is an f-string over two
    floats and is kept as its two arguments. *)
Inductive message : Type :=
| Text (s : string)
| ManualExceeds (total_manual_area usable_area : Q).

Definition msg_total_area : message :=
  Text "Общая площадь должна быть больше нуля.".
Definition msg_useful_ratio : message :=
  Text "Доля полезной площади должна быть между 0 и 1.".
Definition msg_share_zero : message :=
  Text "Сумма долей видов хранения должна быть больше нуля.".
Definition msg_share_over : message :=
  Text "Сумма долей видов хранения не должна превышать 100%.".
Definition msg_manual_zero : message :=
  Text "Сумма вручную введённых площадей должна быть больше нуля.".

Definition epsilon : Q := 1 # 1000000000.

Definition validate_inputs (params : WarehouseParams) : bool * message :=
  if leb (total_area params) 0 then (false, msg_total_area)
  else if negb (ltb 0 (useful_area_ratio params) && leb (useful_area_ratio params) 1)
  then (false, msg_useful_ratio)
  else if String.eqb (mode params) mode_auto then
    let total_share := storage_share params + loan_share params
                       + vip_share params + short_term_share params in
    if ltb (Qabs total_share) epsilon then (false, msg_share_zero)
    else if ltb 1 total_share then (false, msg_share_over)
    else (true, Text EmptyString)
  else
    let total_manual_area := storage_area_manual params + loan_area_manual params
                             + vip_area_manual params + short_term_area_manual params in
    let usable_area := total_area params * useful_area_ratio params in
    if eqb total_manual_area 0 then (false, msg_manual_zero)
    else if ltb usable_area total_manual_area
    then (false, ManualExceeds total_manual_area usable_area)
    else (true, Text EmptyString).

End DataModel.
Import DataModel.

(** ** calculations.py *)

Module Calculations.

(** *** calculate_irr

    [numpy_financial.irr] is a library function.  What the caller can
    observe of one call is one of four outcomes: a rate, a NaN, [None], or an
    exception. *)
Inductive irr_outcome : Type :=
| IrrRate (r : Q)
| IrrNaN
| IrrNone
| IrrRaises (e : exn).

Section IRR.

Variable npf_irr : list Q -> irr_outcome.

Definition calculate_irr (cash_flows : list Q) : result Q :=
  try_except
    (match npf_irr cash_flows with
     | IrrRaises e => Raise e
     | IrrRate irr => Ok (irr * 100)
     | IrrNaN | IrrNone => Ok 0
     end)
    (fun _ => Ok 0).

End IRR.

(** *** calculate_areas *)

Definition areas_dict (usable_area storage_area loan_area vip_area short_term_area : Q)
  : gmap string Q :=
  <["usable_area" := usable_area]>
    (<["storage_area" := storage_area]>
       (<["loan_area" := loan_area]>
          (<["vip_area" := vip_area]>
             (<["short_term_area" := short_term_area]> ∅)))).

Definition calculate_areas (params : WarehouseParams) : result (gmap string Q) :=
  let usable_area := total_area params * useful_area_ratio params in
  '(storage_area, loan_area, vip_area, short_term_area) ←
    (if String.eqb (mode params) mode_auto then
       let total_share := storage_share params + loan_share params
                          + vip_share params + short_term_share params in
       if ltb total_share epsilon then Ok (0, 0, 0, 0)
       else
         f_storage ← (if ltb 0 total_share then storage_share params // total_share else Ok 0);
         f_loan ← (if ltb 0 total_share then loan_share params // total_share else Ok 0);
         f_vip ← (if ltb 0 total_share then vip_share params // total_share else Ok 0);
         f_short ← (if ltb 0 total_share then short_term_share params // total_share else Ok 0);
         Ok (usable_area * f_storage, usable_area * f_loan,
             usable_area * f_vip, usable_area * f_short)
     else
       let total_manual := storage_area_manual params + loan_area_manual params
                           + vip_area_manual params + short_term_area_manual params in
       if ltb usable_area total_manual && ltb 0 total_manual then
         factor ← usable_area // total_manual;
         Ok (storage_area_manual params * factor, loan_area_manual params * factor,
             vip_area_manual params * factor, short_term_area_manual params * factor)
       else
         Ok (storage_area_manual params, loan_area_manual params,
             vip_area_manual params, short_term_area_manual params));
  Ok (areas_dict usable_area storage_area loan_area vip_area short_term_area).

(** *** calculate_items *)

Definition calculate_items (area shelves density : Q) : Q :=
  area * shelves * density.

(** *** calculate_financials

    The function assigns [params.one_time_expenses], so it returns the
    mutated record next to the dictionary.  [disable_extended] is accepted
    and never read. *)

Definition financials_dict
  (total_income total_monthly_expenses profit storage_income short_term_income
   realization_income loan_income vip_income marketing_income daily_storage_fee
   storage_realization loan_realization vip_realization short_term_realization
   storage_items loan_items vip_items short_term_items : Q) : gmap string Q :=
  <["total_income" := total_income]>
  (<["total_expenses" := total_monthly_expenses]>
  (<["profit" := profit]>
  (<["storage_income" := storage_income]>
  (<["short_term_income" := short_term_income]>
  (<["realization_income" := realization_income]>
  (<["loan_income_after_realization" := loan_income]>
  (<["vip_income" := vip_income]>
  (<["marketing_income" := marketing_income]>
  (<["daily_storage_fee" := daily_storage_fee]>
  (<["storage_realization" := storage_realization]>
  (<["loan_realization" := loan_realization]>
  (<["vip_realization" := vip_realization]>
  (<["short_term_realization" := short_term_realization]>
  (<["storage_items" := storage_items]>
  (<["loan_items" := loan_items]>
  (<["vip_items" := vip_items]>
  (<["short_term_items" := short_term_items]> ∅))))))))))))))))).

Definition calculate_financials (params : WarehouseParams) (disable_extended : bool)
  : result (gmap string Q * WarehouseParams) :=
  let storage_items :=
    calculate_items (storage_area params) (shelves_per_m2 params) (storage_items_density params) in
  let loan_items :=
    calculate_items (loan_area params) (shelves_per_m2 params) (loan_items_density params) in
  let vip_items :=
    calculate_items (vip_area params) (shelves_per_m2 params) (vip_items_density params) in
  let short_term_items :=
    calculate_items (short_term_area params) (shelves_per_m2 params)
                    (short_term_items_density params) in
  let storage_income := storage_area params * storage_fee params in
  let vip_income := vip_area params * (storage_fee params + vip_extra_fee params) in
  let short_term_income := short_term_area params * short_term_daily_rate params * 30 in
  let loan_evaluated_value :=
    average_item_value params * item_evaluation params * loan_items in
  let daily_loan_interest_rate :=
    if ltb 0 (loan_interest_rate params) then loan_interest_rate params / 100 else 0 in
  let loan_income :=
    if ltb 0 (loan_interest_rate params)
    then loan_evaluated_value * daily_loan_interest_rate
         * (1 - default_probability params) * 30
    else 0 in
  let storage_realization_items := storage_items * realization_share_storage params in
  let loan_realization_items := loan_items * realization_share_loan params in
  let vip_realization_items := vip_items * realization_share_vip params in
  let short_term_realization_items :=
    short_term_items * realization_share_short_term params in
  let storage_realization :=
    average_item_value params * item_evaluation params * storage_realization_items
    * (item_realization_markup params / 100) in
  let loan_realization :=
    average_item_value params * item_evaluation params * loan_realization_items
    * (item_realization_markup params / 100) in
  let vip_realization :=
    average_item_value params * item_evaluation params * vip_realization_items
    * (item_realization_markup params / 100) in
  let short_term_realization :=
    average_item_value params * item_evaluation params * short_term_realization_items
    * (item_realization_markup params / 100) in
  let realization_income :=
    storage_realization + loan_realization + vip_realization + short_term_realization in
  let marketing_income := 0 in
  let total_income :=
    storage_income + short_term_income + realization_income + loan_income
    + vip_income + marketing_income in
  let monthly_rent := total_area params * rental_cost_per_m2 params in
  let total_monthly_expenses :=
    monthly_rent + salary_expense params + miscellaneous_expenses params
    + depreciation_expense params + marketing_expenses params + insurance_expenses params
    + taxes params + utilities_expenses params + maintenance_expenses params in
  let total_one_time :=
    one_time_setup_cost params + one_time_equipment_cost params
    + one_time_other_costs params + one_time_legal_cost params
    + one_time_logistics_cost params in
  let params := set_one_time_expenses total_one_time params in
  profit ←
    (if (0 <? time_horizon params)%Z then
       amortized ← one_time_expenses params // inject_Z (time_horizon params);
       Ok (total_income - total_monthly_expenses - amortized)
     else Ok (total_income - total_monthly_expenses));
  let daily_storage_fee := if ltb 0 (storage_fee params) then storage_fee params / 30 else 0 in
  Ok (financials_dict total_income total_monthly_expenses profit storage_income
        short_term_income realization_income loan_income vip_income marketing_income
        daily_storage_fee storage_realization loan_realization vip_realization
        short_term_realization storage_items loan_items vip_items short_term_items,
      params).

(** *** calculate_total_bep *)

Definition calculate_total_bep (financials : gmap string Q) (params : WarehouseParams)
  : result float :=
  total_income ← getitem financials "total_income";
  monthly ← getitem financials "total_expenses";
  amortized ←
    (if (0 <? time_horizon params)%Z
     then one_time_expenses params // inject_Z (time_horizon params)
     else Ok 0);
  let total_expenses := monthly + amortized in
  if eqb total_income 0 then Ok PosInf
  else
    let bep_income := total_expenses in
    Ok (Fin bep_income).

(** *** monte_carlo_simulation

    The function draws from numpy's process-wide generator, so it is a
    computation over that generator's state: it takes the state the process
    is in and returns the state it leaves behind.  The generator belongs to
    numpy; the section is parametric in it.

    - [np_random_seed seed] is the state [np.random.seed(seed)] installs
      (or the exception it raises for a seed numpy refuses); it does not
      read the state it replaces.
    - [np_random_uniform low high (rows, cols) g] is the array drawn by
      [np.random.uniform(low, high, (rows, cols))] in state [g] (or the
      exception for a shape numpy refuses), with the state after the draw. *)

(** The returned [pd.DataFrame], column by column. *)
Record DataFrame : Type := {
  month : list Z;
  avg_income : list float;
  avg_expense : list float;
  avg_profit : list float
}.

(** [np.arange(lo, hi)] *)
Definition np_arange (lo hi : Z) : list Z :=
  map (fun i => (lo + Z.of_nat i)%Z) (seq 0 (Z.to_nat (hi - lo))).

Definition Qsum (l : list Q) : Q := foldr Qplus 0 l.

(** The mean of one column; numpy answers [nan] for an empty one. *)
Definition mean (l : list Q) : float :=
  match l with
  | [] => NaN
  | _ => Fin (Qsum l / inject_Z (Z.of_nat (length l)))
  end.

(** [a.mean(axis=0)] for a two-dimensional [a] with [cols] columns. *)
Definition mean_axis0 (cols : nat) (a : list (list Q)) : list float :=
  map (fun j => mean (map (fun row => nth j row 0) a)) (seq 0 cols).

(** [v * a] and [a - b], a vector broadcast against the rows of a matrix
    and two matrices of one shape. *)
Definition broadcast_mul (v : list Q) (a : list (list Q)) : list (list Q) :=
  map (fun row => zip_with Qmult v row) a.
Definition matrix_sub (a b : list (list Q)) : list (list Q) :=
  zip_with (zip_with Qminus) a b.

Section MonteCarlo.

Variable rng_state : Type.
Variable np_random_seed : Z -> result rng_state.
Variable np_random_uniform :
  Q -> Q -> Z * Z -> rng_state -> result (list (list Q)) * rng_state.

Definition monte_carlo_simulation
  (base_income base_expenses : Q) (time_horizon simulations : Z)
  (deviation : Q) (seed : Z) (monthly_income_growth monthly_expenses_growth : Q)
  (g : rng_state) : result DataFrame * rng_state :=
  match np_random_seed seed with
  | Raise e => (Raise e, g)
  | Ok g =>
    let months := np_arange 1 (time_horizon + 1) in
    let income_growth := map (Qpower (1 + monthly_income_growth)) months in
    let expense_growth := map (Qpower (1 + monthly_expenses_growth)) months in
    match np_random_uniform (1 - deviation) (1 + deviation)
                            (simulations, time_horizon) g with
    | (Raise e, g) => (Raise e, g)
    | (Ok income_factors, g) =>
      match np_random_uniform (1 - deviation) (1 + deviation)
                              (simulations, time_horizon) g with
      | (Raise e, g) => (Raise e, g)
      | (Ok expense_factors, g) =>
        let incomes :=
          broadcast_mul (map (Qmult base_income) income_growth) income_factors in
        let expenses :=
          broadcast_mul (map (Qmult base_expenses) expense_growth) expense_factors in
        let profits := matrix_sub incomes expenses in
        let cols := length months in
        (Ok {| month := months;
               avg_income := mean_axis0 cols incomes;
               avg_expense := mean_axis0 cols expenses;
               avg_profit := mean_axis0 cols profits |}, g)
      end
    end
  end.

End MonteCarlo.

(** *** min_loan_amount_for_bep *)

Definition min_loan_amount_for_bep (params : WarehouseParams) (fin : gmap string Q)
  : result Q :=
  total_exp ←
    (if (0 <? time_horizon params)%Z then
       monthly ← getitem fin "total_expenses";
       amortized ← one_time_expenses params // inject_Z (time_horizon params);
       Ok (monthly + amortized)
     else getitem fin "total_expenses");
  loan_items ← getitem fin "loan_items";
  if leb loan_items 0 then Ok 0
  else
    let daily_loan_interest_rate :=
      if ltb 0 (loan_interest_rate params)
      then loan_interest_rate params / 100
      else 1 # 10000 in
    per_item ← total_exp // loan_items;
    min_loan_value ← per_item // (daily_loan_interest_rate * 30);
    Ok (Py.max min_loan_value 0).

(** *** calculate_additional_metrics *)

Definition calculate_additional_metrics (total_income total_expenses profit : Q)
  : result (Q * Q) :=
  profit_margin ←
    (if negb (eqb total_income 0)
     then ratio ← profit // total_income; Ok (ratio * 100)
     else Ok 0);
  profitability ←
    (if negb (eqb total_expenses 0)
     then ratio ← profit // total_expenses; Ok (ratio * 100)
     else Ok 0);
  Ok (profit_margin, profitability).

(** *** calculate_roi

    The [try] body on its own, then the function with its
    [except ZeroDivisionError] handler. *)

Definition calculate_roi_body (total_income total_expenses : Q) : result float :=
  if negb (eqb total_expenses 0)
  then ratio ← (total_income - total_expenses) // total_expenses; Ok (Fin (ratio * 100))
  else Ok PosInf.

Definition calculate_roi (total_income total_expenses : Q) : result float :=
  try_except (calculate_roi_body total_income total_expenses)
    (fun e => match e with
              | ZeroDivisionError => Ok PosInf
              | _ => Raise e
              end).

End Calculations.
Import Calculations.

(** ** Example records

    [example_params] is the record built in [test_calculations.py]. *)

Definition example_params : WarehouseParams := {|
  total_area := 100;
  rental_cost_per_m2 := 10;
  useful_area_ratio := 0.5;
  mode := mode_auto;
  storage_share := 0.25;
  loan_share := 0.25;
  vip_share := 0.25;
  short_term_share := 0.25;
  storage_area_manual := 0;
  loan_area_manual := 0;
  vip_area_manual := 0;
  short_term_area_manual := 0;
  storage_fee := 15;
  shelves_per_m2 := 3;
  short_term_daily_rate := 6;
  vip_extra_fee := 10;
  item_evaluation := 0.8;
  item_realization_markup := 20;
  average_item_value := 15000;
  loan_interest_rate := 0.317;
  realization_share_storage := 0.5;
  realization_share_loan := 0.5;
  realization_share_vip := 0.5;
  realization_share_short_term := 0.5;
  storage_items_density := 5;
  loan_items_density := 1;
  vip_items_density := 2;
  short_term_items_density := 4;
  salary_expense := 240000;
  miscellaneous_expenses := 50000;
  depreciation_expense := 20000;
  marketing_expenses := 30000;
  insurance_expenses := 10000;
  taxes := 50000;
  utilities_expenses := 20000;
  maintenance_expenses := 15000;
  one_time_setup_cost := 100000;
  one_time_equipment_cost := 200000;
  one_time_other_costs := 50000;
  one_time_legal_cost := 20000;
  one_time_logistics_cost := 30000;
  time_horizon := 6;
  monthly_rent_growth := 0.01;
  default_probability := 0.05;
  liquidity_factor := 1;
  safety_factor := 1.2;
  loan_grace_period := 0;
  monthly_income_growth := 0;
  monthly_expenses_growth := 0;
  forecast_method := "Базовый";
  monte_carlo_simulations := 100;
  monte_carlo_deviation := 0.1;
  monte_carlo_seed := 42;
  enable_ml_settings := false;
  one_time_expenses := 0;
  usable_area := 0;
  storage_area := 0;
  loan_area := 0;
  vip_area := 0;
  short_term_area := 0;
  payback_period := 0
|}.

(** The geometry of a record: everything [validate_inputs] and
    [calculate_areas] read. *)
Definition with_geometry (total ratio : Q) (m : string)
  (shares manual : Q * Q * Q * Q) (p : WarehouseParams) : WarehouseParams :=
  let '(Build_WarehouseParams _ a2 _ _ _ _ _ _ _ _ _ _ a13 a14
          a15 a16 a17 a18 a19 a20 a21 a22 a23 a24 a25 a26 a27 a28 a29 a30 a31
          a32 a33 a34 a35 a36 a37 a38 a39 a40 a41 a42 a43 a44 a45 a46 a47 a48
          a49 a50 a51 a52 a53 a54 b1 b2 b3 b4 b5 b6 b7) := p in
  let '(s1, s2, s3, s4) := shares in
  let '(m1, m2, m3, m4) := manual in
  Build_WarehouseParams total a2 ratio m s1 s2 s3 s4 m1 m2 m3 m4 a13 a14
          a15 a16 a17 a18 a19 a20 a21 a22 a23 a24 a25 a26 a27 a28 a29 a30 a31
          a32 a33 a34 a35 a36 a37 a38 a39 a40 a41 a42 a43 a44 a45 a46 a47 a48
          a49 a50 a51 a52 a53 a54 b1 b2 b3 b4 b5 b6 b7.

(** The four shares of a record multiplied by [c]. *)
Definition scale_shares (c : Q) (p : WarehouseParams) : WarehouseParams :=
  with_geometry (total_area p) (useful_area_ratio p) (mode p)
    (c * storage_share p, c * loan_share p, c * vip_share p, c * short_term_share p)
    (storage_area_manual p, loan_area_manual p, vip_area_manual p,
     short_term_area_manual p) p.

(** The five entries a caller reads back from the allocator's dictionary,
    in the order usable, storage, loan, VIP, short-term. *)
Definition area_values (d : gmap string Q) : option (Q * Q * Q * Q * Q) :=
  u ← d !! "usable_area";
  s ← d !! "storage_area";
  l ← d !! "loan_area";
  v ← d !! "vip_area";
  t ← d !! "short_term_area";
  Some (u, s, l, v, t).

Definition total_share (p : WarehouseParams) : Q :=
  storage_share p + loan_share p + vip_share p + short_term_share p.
Definition total_manual (p : WarehouseParams) : Q :=
  storage_area_manual p + loan_area_manual p + vip_area_manual p
  + short_term_area_manual p.


(** [params.time_horizon = h] *)
Definition set_time_horizon (h : Z) (p : WarehouseParams) : WarehouseParams :=
  let '(Build_WarehouseParams a1 a2 a3 a4 a5 a6 a7 a8 a9 a10 a11 a12 a13 a14
          a15 a16 a17 a18 a19 a20 a21 a22 a23 a24 a25 a26 a27 a28 a29 a30 a31
          a32 a33 a34 a35 a36 a37 a38 a39 a40 a41 _ a43 a44 a45 a46 a47 a48
          a49 a50 a51 a52 a53 a54 b1 b2 b3 b4 b5 b6 b7) := p in
  Build_WarehouseParams a1 a2 a3 a4 a5 a6 a7 a8 a9 a10 a11 a12 a13 a14
          a15 a16 a17 a18 a19 a20 a21 a22 a23 a24 a25 a26 a27 a28 a29 a30 a31
          a32 a33 a34 a35 a36 a37 a38 a39 a40 a41 h a43 a44 a45 a46 a47 a48
          a49 a50 a51 a52 a53 a54 b1 b2 b3 b4 b5 b6 b7.

(** The sum of the five one-time cost lines and the sum of the rent and
    the eight recurring expense lines. *)
Definition one_time_total (p : WarehouseParams) : Q :=
  one_time_setup_cost p + one_time_equipment_cost p + one_time_other_costs p
  + one_time_legal_cost p + one_time_logistics_cost p.

Definition monthly_expenses (p : WarehouseParams) : Q :=
  total_area p * rental_cost_per_m2 p + salary_expense p + miscellaneous_expenses p
  + depreciation_expense p + marketing_expenses p + insurance_expenses p
  + taxes p + utilities_expenses p + maintenance_expenses p.

(** The test's record after the allocator's areas have been written back,
    and what [calculate_financials] makes of it. *)
Definition example_allocated : WarehouseParams :=
  set_areas 50 12.5 12.5 12.5 12.5 example_params.

Definition financials_of (p : WarehouseParams) : gmap string Q :=
  match calculate_financials p false with
  | Ok (fin, _) => fin
  | Raise _ => ∅
  end.

Definition params_after_financials (p : WarehouseParams) : WarehouseParams :=
  match calculate_financials p false with
  | Ok (_, p') => p'
  | Raise _ => p
  end.

Definition example_financials : gmap string Q := financials_of example_allocated.
Definition example_final : WarehouseParams := params_after_financials example_allocated.

(** The same for the record before allocation, whose areas are all zero:
    no income and no loan items. *)
Definition idle_financials : gmap string Q := financials_of example_params.
Definition idle_final : WarehouseParams := params_after_financials example_params.

(** Two results of the allocator that give the four classes equal areas. *)
Definition same_areas (r1 r2 : result (gmap string Q)) : Prop :=
  exists d1 u1 s1 l1 v1 t1 d2 u2 s2 l2 v2 t2,
    r1 = Ok d1 /\ area_values d1 = Some (u1, s1, l1, v1, t1) /\
    r2 = Ok d2 /\ area_values d2 = Some (u2, s2, l2, v2, t2) /\
    s1 == s2 /\ l1 == l2 /\ v1 == v2 /\ t1 == t2.

(** *** Statements that the code does not meet, as the specification words
    them, and the records they fail on *)

(** The share rule of the validator with the non-strict bound: a share sum
    of at most 1e-9, or above 1, is rejected. *)
Definition share_rule_claim (p : WarehouseParams) : Prop :=
  0 < total_area p -> 0 < useful_area_ratio p <= 1 -> mode p = mode_auto ->
  (total_share p <= epsilon -> fst (validate_inputs p) = false)
  /\ (1 < total_share p -> fst (validate_inputs p) = false).

Definition boundary_share_record : WarehouseParams :=
  with_geometry 100 0.5 mode_auto (epsilon, 0, 0, 0) (0, 0, 0, 0) example_params.

Definition negative_share_record : WarehouseParams :=
  with_geometry 100 0.5 mode_auto (-0.5, 0, 0, 0) (0, 0, 0, 0) example_params.

(** Overflow scaling for every manual sum above the usable area. *)
Definition manual_overflow_claim (p : WarehouseParams) : Prop :=
  let usable := total_area p * useful_area_ratio p in
  mode p <> mode_auto ->
  usable < total_manual p ->
  exists d u s l v t,
    calculate_areas p = Ok d /\ area_values d = Some (u, s, l, v, t) /\
    s == storage_area_manual p * (usable / total_manual p) /\
    l == loan_area_manual p * (usable / total_manual p) /\
    v == vip_area_manual p * (usable / total_manual p) /\
    t == short_term_area_manual p * (usable / total_manual p).

Definition negative_usable_record : WarehouseParams :=
  with_geometry 10 (-1) mode_manual (0, 0, 0, 0) (1, -2, 0, 0) example_params.

Definition overflow_record : WarehouseParams :=
  with_geometry 100 0.8 mode_manual (0, 0, 0, 0) (10, 20, 30, 40) example_params.

Definition fitting_record : WarehouseParams :=
  with_geometry 100 0.8 mode_manual (0, 0, 0, 0) (10, 20, 30, 10) example_params.

(** Scale invariance for every positive factor. *)
Definition scale_invariance_claim (p : WarehouseParams) (c : Q) : Prop :=
  mode p = mode_auto -> 0 < c ->
  same_areas (calculate_areas p) (calculate_areas (scale_shares c p)).

Definition tiny_factor : Q := 1 # 10000000000.

(** *** The minimum-loan formula, as the specification words it *)

Definition required_expense (monthly : Q) (p : WarehouseParams) : Q :=
  if Z_lt_le_dec 0 (time_horizon p)
  then monthly + one_time_expenses p / inject_Z (time_horizon p)
  else monthly.

Definition daily_rate (p : WarehouseParams) : Q :=
  if Qlt_le_dec 0 (loan_interest_rate p)
  then loan_interest_rate p / 100
  else 1 # 10000.

Definition floor_at_zero (x : Q) : Q :=
  if Qlt_le_dec x 0 then 0 else x.

(** *** A generator to run the simulator on

    The state counts the draws; every drawn factor is the middle of the
    interval. *)
Definition counting_seed (seed : Z) : result Z :=
  if ((0 <=? seed) && (seed <? 2 ^ 32))%Z then Ok 0%Z else Raise ValueError.

Definition counting_uniform (low high : Q) (shape : Z * Z) (g : Z)
  : result (list (list Q)) * Z :=
  let '(rows, cols) := shape in
  if ((rows <? 0) || (cols <? 0))%Z then (Raise ValueError, g)
  else (Ok (replicate (Z.to_nat rows) (replicate (Z.to_nat cols) ((low + high) / 2))),
        (g + rows * cols)%Z).

(** ** utils.py

    The helpers write to the page through streamlit; what they return is
    modelled, what they display is not. *)

Module Utils.

(** *** calculate_roi_utils *)

Definition calculate_roi_utils (total_income total_expenses : Q) : result float :=
  try_except
    (ratio ← (total_income - total_expenses) // total_expenses; Ok (Fin (ratio * 100)))
    (fun e => match e with
              | ZeroDivisionError => Ok PosInf
              | _ => Raise e
              end).

(** *** calculate_total_bep_utils *)

Definition calculate_total_bep_utils (financials : gmap string Q)
  : result (option float) :=
  try_except
    (total_income ← getitem financials "total_income";
     total_expenses ← getitem financials "total_expenses";
     if eqb total_income 0 then Ok (Some PosInf)
     else ratio ← total_expenses // total_income; Ok (Some (Fin (ratio * 100))))
    (fun e => match e with
              | KeyError _ => Ok None
              | _ => Raise e
              end).

(** *** calculate_irr_utils

    [np.irr] is the library's root-finder, with the outcomes of
    [irr_outcome].  The first two guards return before it is called;
    [cash_flows[0]] is the head of a list the first guard found non-empty. *)

Section IRRUtils.

Variable np_irr : list Q -> irr_outcome.

Definition calculate_irr_utils (cash_flows : list Q) : result (option Q) :=
  match cash_flows with
  | [] => Ok None
  | first :: _ =>
    if (length cash_flows <? 2)%nat then Ok None
    else if leb 0 first then Ok None
    else
      try_except
        (match np_irr cash_flows with
         | IrrRaises e => Raise e
         | IrrNone | IrrNaN => Ok None
         | IrrRate irr => Ok (Some (irr * 100))
         end)
        (fun _ => Ok None)
  end.

End IRRUtils.

(** *** prepare_cash_flows *)

Definition prepare_cash_flows (base_financials : gmap string Q) (params : WarehouseParams)
  : result (list Q) :=
  let initial_investment :=
    - (one_time_setup_cost params + one_time_equipment_cost params
       + one_time_other_costs params) in
  profit ← getitem base_financials "profit";
  let recurring_profits := replicate (Z.to_nat (time_horizon params)) profit in
  Ok (initial_investment :: recurring_profits).

(** *** normalize_shares

    The function works on [st.session_state.shares], a dictionary that it
    walks through in order; the dictionary is an association list with
    distinct keys, passed in and returned. *)

(** [d[k] = v]: in place for a key [d] has, at the end for a new one. *)
Fixpoint setitem (k : string) (v : Q) (d : list (string * Q)) : list (string * Q) :=
  match d with
  | [] => [(k, v)]
  | (k', v') :: d' =>
    if String.eqb k' k then (k', v) :: d' else (k', v') :: setitem k v d'
  end.

(** [sum(xs)], which starts from 0 and adds from the left. *)
Definition py_sum (xs : list Q) : Q := fold_left Qplus xs 0.

Definition normalize_shares (changed_share_key : string) (new_value : Q)
  (shares : list (string * Q)) : result (list (string * Q)) :=
  let shares := setitem changed_share_key new_value shares in
  let is_other (kv : string * Q) := negb (String.eqb (fst kv) changed_share_key) in
  let other_keys := map fst (filter is_other shares) in
  let total_other := py_sum (map snd (filter is_other shares)) in
  shares ←
    (if ltb 0 total_other then
       mapM (fun kv : string * Q =>
               if is_other kv then
                 part ← new_value // inject_Z (Z.of_nat (length other_keys));
                 Ok (fst kv, Py.max 0 (snd kv - part))
               else Ok kv) shares
     else Ok shares);
  let total_sum := py_sum (map snd shares) in
  if ltb 0 total_sum then
    mapM (fun kv : string * Q =>
            share ← snd kv // total_sum; Ok (fst kv, share)) shares
  else Ok shares.

End Utils.
Import Utils.

(** ** Quantities the further properties are stated with *)

(** The monthly share of the one-time costs that the engine charges to
    profit: nothing for a horizon of zero or less. *)
Definition amortized_one_time (p : WarehouseParams) : Q :=
  if (0 <? time_horizon p)%Z then one_time_total p / inject_Z (time_horizon p) else 0.

(** A record whose areas, tariffs, densities, shares and expense lines are
    not negative and whose default probability is at most 1. *)
Definition nonnegative_inputs (p : WarehouseParams) : Prop :=
  0 <= total_area p /\ 0 <= rental_cost_per_m2 p /\
  0 <= storage_area p /\ 0 <= loan_area p /\ 0 <= vip_area p /\ 0 <= short_term_area p /\
  0 <= storage_fee p /\ 0 <= vip_extra_fee p /\ 0 <= short_term_daily_rate p /\
  0 <= shelves_per_m2 p /\
  0 <= storage_items_density p /\ 0 <= loan_items_density p /\
  0 <= vip_items_density p /\ 0 <= short_term_items_density p /\
  0 <= average_item_value p /\ 0 <= item_evaluation p /\
  0 <= item_realization_markup p /\
  0 <= realization_share_storage p /\ 0 <= realization_share_loan p /\
  0 <= realization_share_vip p /\ 0 <= realization_share_short_term p /\
  default_probability p <= 1 /\
  0 <= salary_expense p /\ 0 <= miscellaneous_expenses p /\
  0 <= depreciation_expense p /\ 0 <= marketing_expenses p /\
  0 <= insurance_expenses p /\ 0 <= taxes p /\ 0 <= utilities_expenses p /\
  0 <= maintenance_expenses p.

(** ** main.py: from validation to the record the engine reads

    The script validates the record, writes the allocator's dictionary back
    with [setattr], and then enlarges the storage area and the total area by
    the floor space of the shelves. *)

Module Main.

(** [params.storage_area = v] and [params.total_area = v] *)
Definition set_storage_area (v : Q) (p : WarehouseParams) : WarehouseParams :=
  set_areas (usable_area p) v (loan_area p) (vip_area p) (short_term_area p) p.

Definition set_total_area (v : Q) (p : WarehouseParams) : WarehouseParams :=
  with_geometry v (useful_area_ratio p) (mode p)
    (storage_share p, loan_share p, vip_share p, short_term_share p)
    (storage_area_manual p, loan_area_manual p, vip_area_manual p,
     short_term_area_manual p) p.

(** [setattr(params, k, v)] for the keys of the allocator's dictionary; any
    other key would add an attribute that no modelled code reads. *)
Definition setattr (k : string) (v : Q) (p : WarehouseParams) : WarehouseParams :=
  if String.eqb k "usable_area" then
    set_areas v (storage_area p) (loan_area p) (vip_area p) (short_term_area p) p
  else if String.eqb k "storage_area" then
    set_areas (usable_area p) v (loan_area p) (vip_area p) (short_term_area p) p
  else if String.eqb k "loan_area" then
    set_areas (usable_area p) (storage_area p) v (vip_area p) (short_term_area p) p
  else if String.eqb k "vip_area" then
    set_areas (usable_area p) (storage_area p) (loan_area p) v (short_term_area p) p
  else if String.eqb k "short_term_area" then
    set_areas (usable_area p) (storage_area p) (loan_area p) (vip_area p) v p
  else p.

(** [for k, v in areas.items(): setattr(params, k, v)] *)
Definition write_back (areas : gmap string Q) (p : WarehouseParams) : WarehouseParams :=
  map_fold setattr p areas.

Definition SHELF_AREA_PER_SHELF : Q := 0.1.

(** The [if is_valid:] block up to the call of the engine; [None] stands for
    the [else] branch, which only reports the message. *)
Definition allocate_for_engine (params : WarehouseParams)
  : result (option WarehouseParams) :=
  let '(is_valid, error_message) := validate_inputs params in
  if is_valid then
    areas ← calculate_areas params;
    let params := write_back areas params in
    let number_of_shelves := shelves_per_m2 params * storage_area params in
    let shelves_area := number_of_shelves * SHELF_AREA_PER_SHELF in
    let params := set_storage_area (storage_area params + shelves_area) params in
    let params := set_total_area (total_area params + shelves_area) params in
    Ok (Some params)
  else Ok None.

End Main.
Import Main.

(** ** What the simulator needs of a generator

    [np.random.uniform(low, high, (rows, cols))] returns [rows] rows of
    [cols] numbers, each between [low] and [high]. *)

Definition has_shape (rows cols : nat) (a : list (list Q)) : Prop :=
  length a = rows /\ Forall (fun row => length row = cols) a.

Definition entries_within (low high : Q) (a : list (list Q)) : Prop :=
  Forall (Forall (fun x => low <= x <= high)) a.

Definition uniform_draws {S : Type}
  (uniform : Q -> Q -> Z * Z -> S -> result (list (list Q)) * S) : Prop :=
  forall low high rows cols g a g',
    uniform low high (rows, cols) g = (Ok a, g') ->
    has_shape (Z.to_nat rows) (Z.to_nat cols) a
    /\ (low <= high -> entries_within low high a).

(** ** The two passes of normalize_shares

    What the two loops of [normalize_shares] compute when no division
    raises. *)
Definition rebalanced (k : string) (new_value : Q) (d1 : list (string * Q))
  : list (string * Q) :=
  if ltb 0 (py_sum (map snd (filter (fun kv : string * Q =>
                                       negb (String.eqb (fst kv) k)) d1)))
  then map (fun kv : string * Q =>
              if negb (String.eqb (fst kv) k)
              then (fst kv,
                    Py.max 0 (snd kv - new_value
                       / inject_Z (Z.of_nat (length (map fst
                           (filter (fun kv : string * Q =>
                                      negb (String.eqb (fst kv) k)) d1))))))
              else kv) d1
  else d1.

Definition rescaled (d2 : list (string * Q)) : list (string * Q) :=
  if ltb 0 (py_sum (map snd d2))
  then map (fun kv : string * Q => (fst kv, snd kv / py_sum (map snd d2))) d2
  else d2.


Definition initial_shares : list (string * Q) :=
  [("storage_share", 0.25); ("loan_share", 0.25); ("vip_share", 0.25);
   ("short_term_share", 0.25)].

(** ** Comparisons, division and lookups *)

Lemma ltb_true a b : ltb a b = true <-> a < b.
Proof.
  unfold ltb. rewrite negb_true_iff, <- not_true_iff_false, Qle_bool_iff.
  split; [apply Qnot_le_lt | apply Qlt_not_le].
Qed.

Lemma ltb_false a b : ltb a b = false <-> b <= a.
Proof. unfold ltb. rewrite negb_false_iff. apply Qle_bool_iff. Qed.

Lemma leb_true a b : leb a b = true <-> a <= b.
Proof. apply Qle_bool_iff. Qed.

Lemma leb_false a b : leb a b = false <-> b < a.
Proof.
  unfold leb. rewrite <- not_true_iff_false, Qle_bool_iff.
  split; [apply Qnot_le_lt | apply Qlt_not_le].
Qed.

Lemma eqb_true a b : eqb a b = true <-> a == b.
Proof. apply Qeq_bool_iff. Qed.

Lemma eqb_false a b : eqb a b = false <-> ~ a == b.
Proof. unfold eqb. rewrite <- not_true_iff_false, Qeq_bool_iff. tauto. Qed.

Ltac cmp_to_prop :=
  repeat match goal with
    | H : ltb _ _ = true |- _ => apply ltb_true in H
    | H : ltb _ _ = false |- _ => apply ltb_false in H
    | H : leb _ _ = true |- _ => apply leb_true in H
    | H : leb _ _ = false |- _ => apply leb_false in H
    | H : eqb _ _ = true |- _ => apply eqb_true in H
    | H : eqb _ _ = false |- _ => apply eqb_false in H
    | H : (_ && _) = true |- _ => apply andb_true_iff in H; destruct H
    | H : negb _ = false |- _ => apply negb_false_iff in H
    | H : negb _ = true |- _ => apply negb_true_iff in H
    end.

Lemma div_ok a b : ~ b == 0 -> a // b = Ok (a / b).
Proof. intros H. unfold div. apply eqb_false in H. unfold eqb in H. now rewrite H. Qed.

Lemma div_zero a b : b == 0 -> a // b = Raise ZeroDivisionError.
Proof. intros H. unfold div. apply eqb_true in H. unfold eqb in H. now rewrite H. Qed.

Lemma inject_Z_pos_nonzero z : (0 < z)%Z -> ~ inject_Z z == 0.
Proof.
  intros H E. rewrite (Zlt_Qlt 0 z) in H. change (inject_Z 0) with 0 in H. lra.
Qed.

Lemma getitem_Some d k v : d !! k = Some v -> getitem d k = Ok v.
Proof. unfold getitem. now intros ->. Qed.

Lemma getitem_None d k : d !! k = None -> getitem d k = Raise (KeyError k).
Proof. unfold getitem. now intros ->. Qed.

Lemma area_values_areas_dict u s l v t :
  area_values (areas_dict u s l v t) = Some (u, s, l, v, t).
Proof. reflexivity. Qed.

Lemma mode_auto_eqb p : mode p = mode_auto -> String.eqb (mode p) mode_auto = true.
Proof. intros ->. apply String.eqb_refl. Qed.

Lemma mode_manual_eqb p : mode p <> mode_auto -> String.eqb (mode p) mode_auto = false.
Proof. apply String.eqb_neq. Qed.

Lemma max_zero_floor x : Py.max x 0 = floor_at_zero x.
Proof.
  unfold Py.max, floor_at_zero.
  destruct (ltb x 0) eqn:E; destruct (Qlt_le_dec x 0) as [H|H];
    cmp_to_prop; try reflexivity; exfalso; lra.
Qed.

Lemma daily_rate_pos p : 0 < daily_rate p.
Proof.
  unfold daily_rate. destruct (Qlt_le_dec 0 (loan_interest_rate p)).
  - apply Qlt_shift_div_l; lra.
  - reflexivity.
Qed.

(** ** Record updates leave the other fields alone *)

Lemma set_one_time_expenses_fields v p :
  one_time_expenses (set_one_time_expenses v p) = v /\
  time_horizon (set_one_time_expenses v p) = time_horizon p /\
  storage_fee (set_one_time_expenses v p) = storage_fee p.
Proof. destruct p. cbn. repeat split. Qed.

Lemma scale_shares_total c p : total_share (scale_shares c p) == c * total_share p.
Proof. destruct p. unfold total_share, scale_shares. cbn. ring. Qed.

Lemma scale_shares_geometry c p :
  mode (scale_shares c p) = mode p /\
  total_area (scale_shares c p) = total_area p /\
  useful_area_ratio (scale_shares c p) = useful_area_ratio p /\
  storage_share (scale_shares c p) = c * storage_share p /\
  loan_share (scale_shares c p) = c * loan_share p /\
  vip_share (scale_shares c p) = c * vip_share p /\
  short_term_share (scale_shares c p) = c * short_term_share p.
Proof. destruct p. cbn. repeat split. Qed.

(** ** The four branches of calculate_areas *)

Section Allocator.

Variable p : WarehouseParams.
Let usable : Q := total_area p * useful_area_ratio p.

Lemma calculate_areas_normalised :
  mode p = mode_auto -> epsilon <= total_share p ->
  calculate_areas p =
    Ok (areas_dict usable
          (usable * (storage_share p / total_share p))
          (usable * (loan_share p / total_share p))
          (usable * (vip_share p / total_share p))
          (usable * (short_term_share p / total_share p))).
Proof.
  intros Hm H. unfold calculate_areas. rewrite (mode_auto_eqb p Hm).
  fold (total_share p). fold usable.
  assert (Hpos : 0 < total_share p) by (unfold epsilon in H; lra).
  apply ltb_false in H as ->. apply ltb_true in Hpos as E. rewrite E.
  rewrite !div_ok by lra. reflexivity.
Qed.

Lemma calculate_areas_zero_shares :
  mode p = mode_auto -> total_share p < epsilon ->
  calculate_areas p = Ok (areas_dict usable 0 0 0 0).
Proof.
  intros Hm H. unfold calculate_areas. rewrite (mode_auto_eqb p Hm).
  fold (total_share p). apply ltb_true in H as ->. reflexivity.
Qed.

Lemma calculate_areas_scaled :
  mode p <> mode_auto -> usable < total_manual p -> 0 < total_manual p ->
  calculate_areas p =
    Ok (areas_dict usable
          (storage_area_manual p * (usable / total_manual p))
          (loan_area_manual p * (usable / total_manual p))
          (vip_area_manual p * (usable / total_manual p))
          (short_term_area_manual p * (usable / total_manual p))).
Proof.
  intros Hm H1 H2. unfold calculate_areas. rewrite (mode_manual_eqb p Hm).
  fold (total_manual p). fold usable.
  apply ltb_true in H1 as ->. apply ltb_true in H2 as E. rewrite E.
  cbn [andb]. rewrite div_ok by lra. reflexivity.
Qed.

Lemma calculate_areas_unchanged :
  mode p <> mode_auto -> total_manual p <= usable \/ total_manual p <= 0 ->
  calculate_areas p =
    Ok (areas_dict usable (storage_area_manual p) (loan_area_manual p)
          (vip_area_manual p) (short_term_area_manual p)).
Proof.
  intros Hm H. unfold calculate_areas. rewrite (mode_manual_eqb p Hm).
  fold (total_manual p). fold usable.
  destruct (ltb usable (total_manual p) && ltb 0 (total_manual p)) eqn:E;
    [|reflexivity].
  cmp_to_prop. exfalso. lra.
Qed.

End Allocator.

(** ** Area allocator *)

(** C10.  In proportional mode, when the sum of the four shares is at least
    1e-9 the allocator gives each class usable_area * (share / share_sum), and
    the four areas add up to usable_area exactly; when the sum is below 1e-9,
    negative sums included, the four areas are 0 and usable_area is still
    total_area * useful_area_ratio. *)
Theorem proportional_allocation_exact (p : WarehouseParams) :
  mode p = mode_auto ->
  let usable := total_area p * useful_area_ratio p in
  (epsilon <= total_share p ->
     calculate_areas p =
       Ok (areas_dict usable
             (usable * (storage_share p / total_share p))
             (usable * (loan_share p / total_share p))
             (usable * (vip_share p / total_share p))
             (usable * (short_term_share p / total_share p)))
     /\ usable * (storage_share p / total_share p)
        + usable * (loan_share p / total_share p)
        + usable * (vip_share p / total_share p)
        + usable * (short_term_share p / total_share p) == usable)
  /\ (total_share p < epsilon ->
        calculate_areas p = Ok (areas_dict usable 0 0 0 0)).
Proof.
  intros Hm usable. split.
  - intros H. split; [exact (calculate_areas_normalised p Hm H)|].
    assert (Hnz : ~ total_share p == 0) by (unfold epsilon in H; lra).
    unfold total_share in *. subst usable. field. exact Hnz.
  - exact (calculate_areas_zero_shares p Hm).
Qed.

Lemma proportional_allocation_exact_witness :
  (exists s l v t,
     calculate_areas example_params
       = Ok (areas_dict (total_area example_params * useful_area_ratio example_params)
               s l v t)
     /\ s == 12.5 /\ s + l + v + t == 50)
  /\ calculate_areas negative_share_record
     = Ok (areas_dict (total_area negative_share_record
                       * useful_area_ratio negative_share_record) 0 0 0 0).
Proof.
  split.
  - destruct (proportional_allocation_exact example_params eq_refl) as [H _].
    destruct H as [Hd Hsum]; [discriminate|].
    do 4 eexists. split; [exact Hd|]. split; [reflexivity|]. rewrite Hsum. reflexivity.
  - destruct (proportional_allocation_exact negative_share_record eq_refl) as [_ H].
    apply H. reflexivity.
Defined.

(** C1.  Every call of the allocator returns a dictionary whose usable_area
    is total_area * useful_area_ratio; for a record the validator accepts,
    in either mode, the four allocated areas add up to at most usable_area
    (so also to at most usable_area + eps for every eps >= 0). *)
Theorem allocated_areas_within_usable (p : WarehouseParams) :
  exists d u s l v t,
    calculate_areas p = Ok d /\
    area_values d = Some (u, s, l, v, t) /\
    u == total_area p * useful_area_ratio p /\
    (fst (validate_inputs p) = true -> s + l + v + t <= u).
Proof.
  set (usable := total_area p * useful_area_ratio p).
  destruct (String.eqb_spec (mode p) mode_auto) as [Hm|Hm].
  - destruct (Qlt_le_dec (total_share p) epsilon) as [Hlow|Hhigh].
    + do 6 eexists. split; [exact (calculate_areas_zero_shares p Hm Hlow)|].
      split; [apply area_values_areas_dict|]. split; [reflexivity|].
      unfold validate_inputs. intros Hv.
      destruct (leb (total_area p) 0) eqn:Ea; [discriminate|].
      destruct (ltb 0 (useful_area_ratio p)) eqn:Er; [|discriminate].
      cmp_to_prop. nra.
    + do 6 eexists. split; [exact (calculate_areas_normalised p Hm Hhigh)|].
      split; [apply area_values_areas_dict|]. split; [reflexivity|].
      intros _. apply Qle_lteq. right.
      assert (Hnz : ~ total_share p == 0) by (unfold epsilon in Hhigh; lra).
      unfold total_share in *. field. exact Hnz.
  - destruct (Qlt_le_dec usable (total_manual p)) as [Hover|Hfits].
    + destruct (Qlt_le_dec 0 (total_manual p)) as [Hpos|Hneg].
      * do 6 eexists. split; [exact (calculate_areas_scaled p Hm Hover Hpos)|].
        split; [apply area_values_areas_dict|]. split; [reflexivity|].
        intros _. apply Qle_lteq. right.
        assert (Hnz : ~ total_manual p == 0) by lra.
        unfold total_manual in *. field. exact Hnz.
      * do 6 eexists.
        split; [exact (calculate_areas_unchanged p Hm (or_intror Hneg))|].
        split; [apply area_values_areas_dict|]. split; [reflexivity|].
        unfold validate_inputs. rewrite (mode_manual_eqb p Hm).
        fold (total_manual p). fold usable. intros Hv.
        destruct (leb (total_area p) 0); [discriminate|].
        destruct (negb _); [discriminate|].
        destruct (eqb (total_manual p) 0); [discriminate|].
        destruct (ltb usable (total_manual p)) eqn:E; [discriminate|].
        cmp_to_prop. exact E.
    + do 6 eexists.
      split; [exact (calculate_areas_unchanged p Hm (or_introl Hfits))|].
      split; [apply area_values_areas_dict|]. split; [reflexivity|].
      intros _. exact Hfits.
Qed.

Lemma allocated_areas_within_usable_witness :
  fst (validate_inputs example_params) = true /\
  exists d u s l v t,
    calculate_areas example_params = Ok d /\
    area_values d = Some (u, s, l, v, t) /\
    u == 50 /\ s + l + v + t <= u.
Proof.
  split; [reflexivity|].
  destruct (allocated_areas_within_usable example_params)
    as (d & u & s & l & v & t & Hd & Hv & Hu & Hsum).
  exists d, u, s, l, v, t.
  split; [exact Hd|]. split; [exact Hv|]. split; [rewrite Hu; reflexivity|].
  apply Hsum. reflexivity.
Defined.

(** C6, as stated, fails: in manual mode a sum of manual areas above the
    usable area is not scaled when that sum is not positive.  With total
    area 10, ratio -1 and manual areas (1, -2, 0, 0) the sum -1 exceeds the
    usable area -10 and the areas come back unchanged, not multiplied by
    usable / sum = 10. *)
Lemma manual_overflow_claim_fails : ~ manual_overflow_claim negative_usable_record.
Proof.
  unfold manual_overflow_claim. intros H.
  destruct H as (d & u & s & l & v & t & Hd & Hv & Hs & _).
  - discriminate.
  - reflexivity.
  - rewrite (calculate_areas_unchanged negative_usable_record) in Hd
      by (discriminate || (right; discriminate)).
    injection Hd as <-. rewrite area_values_areas_dict in Hv.
    injection Hv as <- <- <- <- <-. vm_compute in Hs. discriminate.
Qed.

(** C6, amended.  In manual mode, when the four manual areas sum to more than
    the usable area and to more than zero, each of the four is multiplied by
    usable_area / sum_manual (inputs (10, 20, 30, 40) against usable area 80
    give (8, 16, 24, 32)); when the sum does not exceed the usable area, or
    is not positive, the four areas are returned unchanged. *)
Theorem manual_allocation (p : WarehouseParams) :
  mode p <> mode_auto ->
  let usable := total_area p * useful_area_ratio p in
  let factor := usable / total_manual p in
  (usable < total_manual p -> 0 < total_manual p ->
     calculate_areas p =
       Ok (areas_dict usable
             (storage_area_manual p * factor) (loan_area_manual p * factor)
             (vip_area_manual p * factor) (short_term_area_manual p * factor)))
  /\ (total_manual p <= usable \/ total_manual p <= 0 ->
        calculate_areas p =
          Ok (areas_dict usable
                (storage_area_manual p) (loan_area_manual p)
                (vip_area_manual p) (short_term_area_manual p)))
  /\ (exists d u s l v t,
        calculate_areas overflow_record = Ok d /\
        area_values d = Some (u, s, l, v, t) /\
        u == 80 /\ s == 8 /\ l == 16 /\ v == 24 /\ t == 32).
Proof.
  intros Hm usable factor. split; [|split].
  - exact (calculate_areas_scaled p Hm).
  - exact (calculate_areas_unchanged p Hm).
  - do 6 eexists.
    split; [apply (calculate_areas_scaled overflow_record);
            [discriminate | reflexivity | reflexivity]|].
    split; [apply area_values_areas_dict|]. repeat split; reflexivity.
Qed.

Lemma manual_allocation_witness :
  (exists s l v t,
     calculate_areas overflow_record
       = Ok (areas_dict (total_area overflow_record * useful_area_ratio overflow_record)
               s l v t)
     /\ s == 8 /\ l == 16 /\ v == 24 /\ t == 32)
  /\ calculate_areas fitting_record
     = Ok (areas_dict (total_area fitting_record * useful_area_ratio fitting_record)
             10 20 30 10).
Proof.
  assert (Ho : mode overflow_record <> mode_auto) by discriminate.
  assert (Hf : mode fitting_record <> mode_auto) by discriminate.
  split.
  - destruct (manual_allocation overflow_record Ho) as (H & _ & _).
    do 4 eexists. split; [apply H; reflexivity|]. repeat split; reflexivity.
  - destruct (manual_allocation fitting_record Hf) as (_ & H & _).
    apply H. left. discriminate.
Defined.

(** C7, as stated, fails: multiplying the four shares 0.25 of the test's
    record by the positive constant 1e-10 takes their sum below the 1e-9
    guard, and the allocator returns four zero areas instead of 12.5 each. *)
Lemma scale_invariance_claim_fails :
  ~ scale_invariance_claim example_params tiny_factor.
Proof.
  unfold scale_invariance_claim, same_areas. intros H.
  destruct H as (d1 & u1 & s1 & l1 & v1 & t1 & d2 & u2 & s2 & l2 & v2 & t2
                 & H1 & V1 & H2 & V2 & Hs & _); [reflexivity | reflexivity |].
  rewrite (calculate_areas_normalised example_params) in H1
    by (reflexivity || discriminate).
  rewrite (calculate_areas_zero_shares (scale_shares tiny_factor example_params)) in H2
    by reflexivity.
  injection H1 as <-. injection H2 as <-.
  rewrite area_values_areas_dict in V1, V2.
  injection V1 as <- <- <- <- <-. injection V2 as <- <- <- <- <-.
  vm_compute in Hs. discriminate.
Qed.

(** C7, amended.  In proportional mode, for every positive constant c that
    leaves the share sum on the same side of the 1e-9 guard (the sum and the
    scaled sum both at least 1e-9, or both below it), replacing each share s
    by c * s gives the same four allocated areas. *)
Theorem proportional_scale_invariance (p : WarehouseParams) (c : Q) :
  mode p = mode_auto -> 0 < c ->
  (epsilon <= total_share p /\ epsilon <= total_share (scale_shares c p))
  \/ (total_share p < epsilon /\ total_share (scale_shares c p) < epsilon) ->
  same_areas (calculate_areas p) (calculate_areas (scale_shares c p)).
Proof.
  intros Hm Hc Hside.
  pose proof (scale_shares_total c p) as Hts.
  destruct (scale_shares_geometry c p) as (Gm & Ga & Gr & G1 & G2 & G3 & G4).
  assert (Hm' : mode (scale_shares c p) = mode_auto) by congruence.
  unfold same_areas.
  destruct Hside as [[H1 H2] | [H1 H2]].
  - rewrite (calculate_areas_normalised p Hm H1).
    rewrite (calculate_areas_normalised _ Hm' H2).
    do 12 eexists. split; [reflexivity|]. split; [apply area_values_areas_dict|].
    split; [reflexivity|]. split; [apply area_values_areas_dict|].
    assert (Hnz : ~ total_share p == 0) by (unfold epsilon in H1; lra).
    assert (Hcz : ~ c == 0) by lra.
    rewrite Ga, Gr, G1, G2, G3, G4, Hts.
    repeat split; field; split; assumption.
  - rewrite (calculate_areas_zero_shares p Hm H1).
    rewrite (calculate_areas_zero_shares _ Hm' H2).
    do 12 eexists. split; [reflexivity|]. split; [apply area_values_areas_dict|].
    split; [reflexivity|]. split; [apply area_values_areas_dict|].
    repeat split; reflexivity.
Qed.

Lemma proportional_scale_invariance_witness :
  same_areas (calculate_areas example_params)
             (calculate_areas (scale_shares 0.5 example_params)).
Proof.
  apply proportional_scale_invariance.
  - reflexivity.
  - reflexivity.
  - left. split; discriminate.
Defined.

(** ** Validator *)

(** C2, as stated, fails: a proportional record whose four shares sum to
    exactly 1e-9 (shares 1e-9, 0, 0, 0 on total area 100 and ratio 0.5) is
    accepted, because the guard is the strict [abs(total_share) < 1e-9]. *)
Lemma share_rule_claim_fails : ~ share_rule_claim boundary_share_record.
Proof.
  intros H. destruct H as [H _].
  - reflexivity.
  - split; [reflexivity | discriminate].
  - reflexivity.
  - assert (E : total_share boundary_share_record <= epsilon) by discriminate.
    specialize (H E). vm_compute in H. discriminate.
Qed.

(** The guard compares the absolute value of the sum, so a sum of -0.5 passes
    the share rule as well. *)
Lemma negative_share_sum_accepted :
  total_share negative_share_record < 0 /\
  validate_inputs negative_share_record = (true, Text EmptyString).
Proof. split; reflexivity. Qed.

(** C2, amended.  The validator checks its rules in a fixed order and the
    first failure wins: a non-positive total area is reported whatever the
    other fields hold, then a ratio outside (0, 1]; with both in range, in
    proportional mode, a share sum smaller than 1e-9 in absolute value is
    rejected, a share sum above 1.0 is rejected, and a share sum from 1e-9
    (included) to 1.0 passes. *)
Theorem validate_inputs_rules (p : WarehouseParams) :
  (total_area p <= 0 -> validate_inputs p = (false, msg_total_area))
  /\ (0 < total_area p -> ~ 0 < useful_area_ratio p <= 1 ->
        validate_inputs p = (false, msg_useful_ratio))
  /\ (0 < total_area p -> 0 < useful_area_ratio p <= 1 -> mode p = mode_auto ->
        (Qabs (total_share p) < epsilon ->
           validate_inputs p = (false, msg_share_zero))
        /\ (1 < total_share p ->
              validate_inputs p = (false, msg_share_over))
        /\ (epsilon <= total_share p <= 1 ->
              validate_inputs p = (true, Text EmptyString))).
Proof.
  unfold validate_inputs. fold (total_share p).
  split; [|split].
  - intros H. apply leb_true in H. now rewrite H.
  - intros Ha Hr. apply leb_false in Ha. rewrite Ha.
    destruct (ltb 0 (useful_area_ratio p) && leb (useful_area_ratio p) 1) eqn:E;
      [|reflexivity].
    cmp_to_prop. tauto.
  - intros Ha [Hr1 Hr2] Hm. apply leb_false in Ha. rewrite Ha.
    apply ltb_true in Hr1. apply leb_true in Hr2. rewrite Hr1, Hr2.
    cbn [andb negb]. rewrite (mode_auto_eqb p Hm).
    split; [|split].
    + intros H. apply ltb_true in H. now rewrite H.
    + intros H.
      assert (E : epsilon <= Qabs (total_share p)).
      { pose proof (Qle_Qabs (total_share p)). unfold epsilon. lra. }
      apply ltb_false in E. rewrite E. apply ltb_true in H. now rewrite H.
    + intros [H1 H2].
      assert (E : epsilon <= Qabs (total_share p)).
      { pose proof (Qle_Qabs (total_share p)). lra. }
      apply ltb_false in E. rewrite E. apply ltb_false in H2. now rewrite H2.
Qed.

Lemma validate_inputs_rules_witness :
  validate_inputs (with_geometry (-10) 0.5 mode_auto (0.25, 0.25, 0.25, 0.25)
                     (0, 0, 0, 0) example_params) = (false, msg_total_area)
  /\ validate_inputs (with_geometry 100 1.5 mode_auto (0.25, 0.25, 0.25, 0.25)
                        (0, 0, 0, 0) example_params) = (false, msg_useful_ratio)
  /\ validate_inputs (with_geometry 100 0.5 mode_auto (0, 0, 0, 0)
                        (0, 0, 0, 0) example_params) = (false, msg_share_zero)
  /\ validate_inputs (with_geometry 100 0.5 mode_auto (0.5, 0.5, 0.25, 0.25)
                        (0, 0, 0, 0) example_params) = (false, msg_share_over)
  /\ validate_inputs boundary_share_record = (true, Text EmptyString)
  /\ validate_inputs example_params = (true, Text EmptyString).
Proof.
  split; [|split; [|split; [|split; [|split]]]].
  - apply (validate_inputs_rules _). discriminate.
  - apply (validate_inputs_rules _); [reflexivity|].
    intros [_ H]. apply H. reflexivity.
  - apply (validate_inputs_rules _);
      [reflexivity | split; [reflexivity | discriminate] | reflexivity | reflexivity].
  - apply (validate_inputs_rules _);
      [reflexivity | split; [reflexivity | discriminate] | reflexivity | reflexivity].
  - apply (validate_inputs_rules _);
      [reflexivity | split; [reflexivity | discriminate] | reflexivity
      | split; discriminate].
  - apply (validate_inputs_rules _);
      [reflexivity | split; [reflexivity | discriminate] | reflexivity
      | split; discriminate].
Defined.

(** ** Financial engine and break-even *)

(** C5.  For every record the financial engine returns (it does not raise)
    and its profit is total_income - total_monthly_expense -
    one_time_total / time_horizon when the horizon is positive, and
    total_income - total_monthly_expense, the one-time total left out, when
    the horizon is zero or negative.  The one-time total is the sum of the
    five one-time cost lines, which the engine also stores on the record. *)
Theorem financials_profit (p : WarehouseParams) (disable_extended : bool) :
  exists fin p' income monthly profit,
    calculate_financials p disable_extended = Ok (fin, p') /\
    fin !! "total_income" = Some income /\
    fin !! "total_expenses" = Some monthly /\
    fin !! "profit" = Some profit /\
    monthly == monthly_expenses p /\
    one_time_expenses p' = one_time_total p /\
    ((0 < time_horizon p)%Z ->
       profit == income - monthly - one_time_total p / inject_Z (time_horizon p)) /\
    ((time_horizon p <= 0)%Z -> profit == income - monthly).
Proof.
  unfold calculate_financials. fold (one_time_total p).
  destruct (set_one_time_expenses_fields (one_time_total p) p) as (E1 & E2 & E3).
  rewrite E1, E2, E3.
  destruct (0 <? time_horizon p)%Z eqn:Eh.
  - apply Z.ltb_lt in Eh. rewrite div_ok by (apply inject_Z_pos_nonzero; exact Eh).
    do 5 eexists. split; [reflexivity|].
    split; [reflexivity|]. split; [reflexivity|]. split; [reflexivity|].
    split; [reflexivity|]. split; [exact E1|].
    split; [reflexivity | lia].
  - apply Z.ltb_ge in Eh.
    do 5 eexists. split; [reflexivity|].
    split; [reflexivity|]. split; [reflexivity|]. split; [reflexivity|].
    split; [reflexivity|]. split; [exact E1|].
    split; [lia | reflexivity].
Qed.

Lemma financials_profit_witness :
  (exists income monthly profit,
     example_financials !! "total_income" = Some income /\
     example_financials !! "total_expenses" = Some monthly /\
     example_financials !! "profit" = Some profit /\
     monthly == 436000 /\
     profit == income - monthly - 400000 / 6)
  /\ (exists income monthly profit,
        financials_of (set_time_horizon 0 example_allocated) !! "total_income"
          = Some income /\
        financials_of (set_time_horizon 0 example_allocated) !! "total_expenses"
          = Some monthly /\
        financials_of (set_time_horizon 0 example_allocated) !! "profit"
          = Some profit /\
        profit == income - monthly).
Proof.
  split.
  - destruct (financials_profit example_allocated false)
      as (fin & p' & income & monthly & profit & Hc & Hi & Hm & Hp & Em & _ & Hpos & _).
    unfold example_financials, financials_of. rewrite Hc.
    exists income, monthly, profit.
    split; [exact Hi|]. split; [exact Hm|]. split; [exact Hp|].
    split; [rewrite Em; reflexivity|].
    rewrite Hpos by reflexivity. reflexivity.
  - destruct (financials_profit (set_time_horizon 0 example_allocated) false)
      as (fin & p' & income & monthly & profit & Hc & Hi & Hm & Hp & _ & _ & _ & Hneg).
    unfold financials_of. rewrite Hc.
    exists income, monthly, profit.
    split; [exact Hi|]. split; [exact Hm|]. split; [exact Hp|].
    apply Hneg. discriminate.
Defined.

Lemma calculate_total_bep_cases (financials : gmap string Q) (params : WarehouseParams)
  (income monthly : Q) :
  financials !! "total_income" = Some income ->
  financials !! "total_expenses" = Some monthly ->
  (income == 0 -> calculate_total_bep financials params = Ok PosInf)
  /\ (~ income == 0 -> (0 < time_horizon params)%Z ->
        calculate_total_bep financials params =
          Ok (Fin (monthly + one_time_expenses params / inject_Z (time_horizon params))))
  /\ (~ income == 0 -> (time_horizon params <= 0)%Z ->
        calculate_total_bep financials params = Ok (Fin (monthly + 0))).
Proof.
  intros Hi Hm. unfold calculate_total_bep.
  rewrite (getitem_Some _ _ _ Hi), (getitem_Some _ _ _ Hm). cbn [mbind result_bind].
  destruct (0 <? time_horizon params)%Z eqn:Eh.
  - apply Z.ltb_lt in Eh. rewrite div_ok by (apply inject_Z_pos_nonzero; exact Eh).
    repeat split.
    + intros H. apply eqb_true in H. now rewrite H.
    + intros H _. apply eqb_false in H. now rewrite H.
    + lia.
  - apply Z.ltb_ge in Eh. repeat split.
    + intros H. apply eqb_true in H. now rewrite H.
    + lia.
    + intros H _. apply eqb_false in H. now rewrite H.
Qed.

(** The dictionary and the record that [calculate_financials] hands on: the
    stored one-time total is the sum of the five cost lines. *)
Lemma total_bep_after_financials (p : WarehouseParams) (disable_extended : bool) :
  exists fin p' income monthly,
    calculate_financials p disable_extended = Ok (fin, p') /\
    fin !! "total_income" = Some income /\
    fin !! "total_expenses" = Some monthly /\
    (~ income == 0 -> (0 < time_horizon p)%Z ->
       calculate_total_bep fin p' =
         Ok (Fin (monthly + one_time_total p / inject_Z (time_horizon p)))).
Proof.
  unfold calculate_financials. fold (one_time_total p).
  destruct (set_one_time_expenses_fields (one_time_total p) p) as (E1 & E2 & E3).
  rewrite E1, E2, E3.
  destruct (0 <? time_horizon p)%Z eqn:Eh.
  - apply Z.ltb_lt in Eh. rewrite div_ok by (apply inject_Z_pos_nonzero; exact Eh).
    do 4 eexists. split; [reflexivity|].
    split; [reflexivity|]. split; [reflexivity|].
    intros Hi _.
    match goal with |- calculate_total_bep ?f ?q = _ =>
      destruct (calculate_total_bep_cases f q _ _ eq_refl eq_refl) as (_ & H & _)
    end.
    rewrite H; [now rewrite E1, E2 | exact Hi | now rewrite E2].
  - apply Z.ltb_ge in Eh.
    do 4 eexists. split; [reflexivity|].
    split; [reflexivity|]. split; [reflexivity|]. lia.
Qed.

(** C3.  On a financial result (a dictionary holding total_income and
    total_expenses) and any record, the break-even calculator does not raise;
    it returns positive infinity when total_income is 0, and otherwise
    total_expenses + one_time_total / time_horizon when the horizon is
    positive and total_expenses + 0 when the horizon is zero or negative.
    The one-time total is the one stored on the record, which after
    [calculate_financials] is the sum of the five one-time cost lines. *)
Theorem total_bep_value (financials : gmap string Q) (params : WarehouseParams)
  (income monthly : Q) :
  financials !! "total_income" = Some income ->
  financials !! "total_expenses" = Some monthly ->
  ~ raises (calculate_total_bep financials params)
  /\ (income == 0 -> calculate_total_bep financials params = Ok PosInf)
  /\ (~ income == 0 -> (0 < time_horizon params)%Z ->
        calculate_total_bep financials params =
          Ok (Fin (monthly + one_time_expenses params / inject_Z (time_horizon params))))
  /\ (~ income == 0 -> (time_horizon params <= 0)%Z ->
        calculate_total_bep financials params = Ok (Fin (monthly + 0)))
  /\ (forall p disable_extended, exists fin p' income' monthly',
        calculate_financials p disable_extended = Ok (fin, p') /\
        fin !! "total_income" = Some income' /\
        fin !! "total_expenses" = Some monthly' /\
        (~ income' == 0 -> (0 < time_horizon p)%Z ->
           calculate_total_bep fin p' =
             Ok (Fin (monthly' + one_time_total p / inject_Z (time_horizon p))))).
Proof.
  intros Hi Hm.
  destruct (calculate_total_bep_cases financials params income monthly Hi Hm)
    as (H0 & Hpos & Hneg).
  split; [|split; [exact H0|split; [exact Hpos|split; [exact Hneg|]]]].
  - destruct (Qeq_dec income 0) as [E|E].
    + rewrite (H0 E). exact id.
    + destruct (Z_lt_le_dec 0 (time_horizon params)) as [Hh|Hh].
      * rewrite (Hpos E Hh). exact id.
      * rewrite (Hneg E Hh). exact id.
  - exact total_bep_after_financials.
Qed.

Lemma total_bep_value_witness :
  (exists income monthly,
     example_financials !! "total_income" = Some income /\
     example_financials !! "total_expenses" = Some monthly /\
     income == 583405.25 /\ monthly == 436000 /\
     calculate_total_bep example_financials example_final
       = Ok (Fin (monthly + one_time_expenses example_final
                            / inject_Z (time_horizon example_final))) /\
     monthly + one_time_expenses example_final / inject_Z (time_horizon example_final)
       == 436000 + 400000 / 6)
  /\ calculate_total_bep idle_financials idle_final = Ok PosInf
  /\ (exists monthly,
        example_financials !! "total_expenses" = Some monthly /\
        calculate_total_bep example_financials (set_time_horizon 0 example_final)
          = Ok (Fin (monthly + 0))).
Proof.
  split; [|split].
  - eexists _, _.
    split; [vm_compute; reflexivity|]. split; [vm_compute; reflexivity|].
    split; [reflexivity|]. split; [reflexivity|]. split; [|reflexivity].
    eapply total_bep_value;
      [vm_compute; reflexivity | vm_compute; reflexivity | discriminate | reflexivity].
  - eapply total_bep_value;
      [vm_compute; reflexivity | vm_compute; reflexivity | reflexivity].
  - eexists. split; [vm_compute; reflexivity|].
    eapply total_bep_value;
      [vm_compute; reflexivity | vm_compute; reflexivity | discriminate | discriminate].
Defined.

(** C9.  On a financial result (a dictionary holding total_expenses and
    loan_items) the minimum-loan solver returns 0 when the loan item count L
    is zero or negative; otherwise it returns (E / L) / (r * 30) floored at 0,
    where E is total_expenses + one_time_total / time_horizon for a positive
    horizon and total_expenses otherwise, and r is loan_interest_rate / 100
    for a positive rate and 0.0001 otherwise. *)
Theorem min_loan_per_item (p : WarehouseParams) (fin : gmap string Q) (monthly L : Q) :
  fin !! "total_expenses" = Some monthly ->
  fin !! "loan_items" = Some L ->
  (L <= 0 -> min_loan_amount_for_bep p fin = Ok 0)
  /\ (0 < L ->
        min_loan_amount_for_bep p fin =
          Ok (floor_at_zero (required_expense monthly p / L / (daily_rate p * 30)))).
Proof.
  intros Hm HL. unfold min_loan_amount_for_bep.
  rewrite (getitem_Some _ _ _ Hm), (getitem_Some _ _ _ HL).
  assert (Hexp :
    (if (0 <? time_horizon p)%Z
     then monthly0 ← Ok monthly;
          amortized ← one_time_expenses p // inject_Z (time_horizon p);
          Ok (monthly0 + amortized)
     else Ok monthly) = Ok (required_expense monthly p)).
  { unfold required_expense.
    destruct (0 <? time_horizon p)%Z eqn:Eh; destruct (Z_lt_le_dec 0 (time_horizon p));
      try (apply Z.ltb_lt in Eh); try (apply Z.ltb_ge in Eh); try lia; try reflexivity.
    cbn [mbind result_bind]. rewrite div_ok by (apply inject_Z_pos_nonzero; lia).
    reflexivity. }
  rewrite Hexp. cbn [mbind result_bind].
  assert (Hrate :
    (if ltb 0 (loan_interest_rate p) then loan_interest_rate p / 100 else 1 # 10000)
    = daily_rate p).
  { unfold daily_rate.
    destruct (ltb 0 (loan_interest_rate p)) eqn:E;
      destruct (Qlt_le_dec 0 (loan_interest_rate p));
      cmp_to_prop; try reflexivity; exfalso; lra. }
  rewrite Hrate. split.
  - intros H. apply leb_true in H. now rewrite H.
  - intros H. apply leb_false in H as E. rewrite E.
    rewrite div_ok by lra. cbn [mbind result_bind].
    pose proof (daily_rate_pos p).
    rewrite div_ok by lra. cbn [mbind result_bind].
    now rewrite max_zero_floor.
Qed.

Lemma min_loan_per_item_witness :
  (exists monthly L,
     example_financials !! "total_expenses" = Some monthly /\
     example_financials !! "loan_items" = Some L /\
     L == 37.5 /\
     min_loan_amount_for_bep example_final example_financials
       = Ok (floor_at_zero (required_expense monthly example_final / L
                            / (daily_rate example_final * 30))) /\
     daily_rate example_final == 0.00317)
  /\ min_loan_amount_for_bep idle_final idle_financials = Ok 0.
Proof.
  split.
  - eexists _, _.
    split; [vm_compute; reflexivity|]. split; [vm_compute; reflexivity|].
    split; [reflexivity|]. split; [|reflexivity].
    eapply min_loan_per_item;
      [vm_compute; reflexivity | vm_compute; reflexivity | reflexivity].
  - eapply min_loan_per_item;
      [vm_compute; reflexivity | vm_compute; reflexivity | discriminate].
Defined.

(** ** Internal rate of return *)

(** C8.  Whatever the root-finder does on a cash-flow list, the IRR
    calculator returns a number and does not raise: 100 times the rate when
    the root-finder yields one, and exactly 0 when it yields NaN or None or
    raises. *)
Theorem calculate_irr_total (npf_irr : list Q -> irr_outcome) (cash_flows : list Q) :
  (exists v, calculate_irr npf_irr cash_flows = Ok v)
  /\ (forall r, npf_irr cash_flows = IrrRate r ->
        calculate_irr npf_irr cash_flows = Ok (r * 100))
  /\ (npf_irr cash_flows = IrrNaN \/ npf_irr cash_flows = IrrNone
      \/ (exists e, npf_irr cash_flows = IrrRaises e) ->
        calculate_irr npf_irr cash_flows = Ok 0).
Proof.
  unfold calculate_irr. split; [|split].
  - destruct (npf_irr cash_flows); cbn; eauto.
  - intros r ->. reflexivity.
  - intros [-> | [-> | [e ->]]]; reflexivity.
Qed.

Lemma calculate_irr_total_witness :
  calculate_irr (fun _ => IrrRate 0.0891) [-100000; 30000; 40000; 50000]
    = Ok (0.0891 * 100)
  /\ calculate_irr (fun _ => IrrNaN) [] = Ok 0
  /\ calculate_irr (fun _ => IrrRaises ValueError) [1; 2] = Ok 0.
Proof.
  split; [|split].
  - apply (calculate_irr_total (fun _ => IrrRate 0.0891)). reflexivity.
  - apply (calculate_irr_total (fun _ => IrrNaN)). left. reflexivity.
  - apply (calculate_irr_total (fun _ => IrrRaises ValueError)).
    right. right. exists ValueError. reflexivity.
Defined.

(** ** Monte Carlo simulator *)

(** C4.  For every generator and every argument tuple, the table the
    simulator returns does not depend on the state the process-wide generator
    is in when it is called: the generator is re-seeded from the seed
    argument before the first draw.  So two calls with the same arguments
    return the same table, also when the second runs in the state the first
    one left behind. *)
Theorem monte_carlo_deterministic
  (rng_state : Type) (np_random_seed : Z -> result rng_state)
  (np_random_uniform :
     Q -> Q -> Z * Z -> rng_state -> result (list (list Q)) * rng_state)
  (base_income base_expenses : Q) (time_horizon simulations : Z)
  (deviation : Q) (seed : Z) (monthly_income_growth monthly_expenses_growth : Q) :
  let simulate :=
    monte_carlo_simulation rng_state np_random_seed np_random_uniform
      base_income base_expenses time_horizon simulations deviation seed
      monthly_income_growth monthly_expenses_growth in
  (forall g1 g2, fst (simulate g1) = fst (simulate g2))
  /\ (forall g, fst (simulate (snd (simulate g))) = fst (simulate g)).
Proof.
  intros simulate.
  assert (H : forall g1 g2, fst (simulate g1) = fst (simulate g2)).
  { intros g1 g2. subst simulate. unfold monte_carlo_simulation.
    destruct (np_random_seed seed); reflexivity. }
  split; [exact H | intros g; apply H].
Qed.

(** The simulator runs: three months, two trials, no growth, on the
    counting generator. *)
Example monte_carlo_months :
  exists df,
    fst (monte_carlo_simulation Z counting_seed counting_uniform
           1000 400 3 2 0.1 42 0 0 7%Z) = Ok df
    /\ month df = [1; 2; 3]%Z
    /\ length (avg_profit df) = 3%nat.
Proof. eexists. split; [reflexivity|]. split; reflexivity. Qed.

(** ** Ratios and return on investment *)

Lemma calculate_roi_nonzero (total_income total_expenses : Q) :
  ~ total_expenses == 0 ->
  calculate_roi total_income total_expenses
  = Ok (Fin ((total_income - total_expenses) / total_expenses * 100)).
Proof.
  intros E. unfold calculate_roi, calculate_roi_body.
  apply eqb_false in E as Eb. rewrite Eb. cbn [negb].
  rewrite div_ok by exact E. reflexivity.
Qed.

Lemma profitability_nonzero (total_income total_expenses profit : Q) :
  ~ total_expenses == 0 ->
  exists profit_margin,
    calculate_additional_metrics total_income total_expenses profit
    = Ok (profit_margin, profit / total_expenses * 100).
Proof.
  intros He. unfold calculate_additional_metrics.
  apply eqb_false in He as Eb. rewrite Eb. cbn [negb].
  destruct (eqb total_income 0) eqn:Ei; cmp_to_prop; cbn [negb];
    rewrite ?div_ok by assumption; cbn; eexists; reflexivity.
Qed.

(** X1.  [calculate_roi] never reaches its [except] branch: the guarded
    [try] body returns for every input.  The result is positive infinity
    exactly when total expenses are zero, and 100 * (income - expenses) /
    expenses otherwise. *)
Theorem calculate_roi_guarded (total_income total_expenses : Q) :
  ~ raises (calculate_roi_body total_income total_expenses)
  /\ calculate_roi total_income total_expenses
     = calculate_roi_body total_income total_expenses
  /\ (total_expenses == 0 -> calculate_roi total_income total_expenses = Ok PosInf)
  /\ (~ total_expenses == 0 ->
        calculate_roi total_income total_expenses
        = Ok (Fin ((total_income - total_expenses) / total_expenses * 100))).
Proof.
  unfold calculate_roi, calculate_roi_body.
  destruct (eqb total_expenses 0) eqn:E; cmp_to_prop; cbn [negb].
  - repeat split; try exact id; try reflexivity. intros H. contradiction.
  - rewrite div_ok by exact E. cbn.
    repeat split; try exact id; try reflexivity. intros H. contradiction.
Qed.

Lemma calculate_roi_guarded_witness :
  calculate_roi 1000 0 = Ok PosInf
  /\ calculate_roi 1500 1000 = Ok (Fin ((1500 - 1000) / 1000 * 100)).
Proof.
  split.
  - apply (calculate_roi_guarded 1000 0). reflexivity.
  - apply (calculate_roi_guarded 1500 1000). discriminate.
Defined.

(** X2.  The helper in [utils.py] divides first and catches the
    [ZeroDivisionError]; it returns the same value as [calculate_roi] on
    every input. *)
Theorem calculate_roi_utils_agrees (total_income total_expenses : Q) :
  calculate_roi_utils total_income total_expenses
  = calculate_roi total_income total_expenses.
Proof.
  unfold calculate_roi_utils, calculate_roi, calculate_roi_body.
  destruct (eqb total_expenses 0) eqn:E; cmp_to_prop; cbn [negb].
  - rewrite div_zero by exact E. reflexivity.
  - rewrite div_ok by exact E. reflexivity.
Qed.

(** X3.  [calculate_additional_metrics] does not raise, whatever the three
    numbers: a zero income gives margin 0, a zero expense total gives
    profitability 0, and otherwise the two are 100 * profit / income and
    100 * profit / expenses. *)
Theorem additional_metrics_total (total_income total_expenses profit : Q) :
  exists profit_margin profitability,
    calculate_additional_metrics total_income total_expenses profit
      = Ok (profit_margin, profitability)
    /\ (total_income == 0 -> profit_margin = 0)
    /\ (~ total_income == 0 -> profit_margin = profit / total_income * 100)
    /\ (total_expenses == 0 -> profitability = 0)
    /\ (~ total_expenses == 0 -> profitability = profit / total_expenses * 100).
Proof.
  unfold calculate_additional_metrics.
  destruct (eqb total_income 0) eqn:Ei; destruct (eqb total_expenses 0) eqn:Ee;
    cmp_to_prop; cbn [negb]; rewrite ?div_ok by assumption; cbn;
    do 2 eexists; (split; [reflexivity|]); repeat split;
    intros; try reflexivity; contradiction.
Qed.

Lemma additional_metrics_total_witness :
  calculate_additional_metrics 0 0 5 = Ok (0, 0)
  /\ calculate_additional_metrics 200 100 50 = Ok (50 / 200 * 100, 50 / 100 * 100).
Proof.
  split.
  - destruct (additional_metrics_total 0 0 5) as (m & r & H & Hm & _ & Hr & _).
    rewrite H, Hm, Hr by reflexivity. reflexivity.
  - destruct (additional_metrics_total 200 100 50) as (m & r & H & _ & Hm & _ & Hr).
    rewrite H, Hm, Hr by discriminate. reflexivity.
Defined.

(** ** More on the financial engine *)

Lemma Qplus_nonneg a b : 0 <= a -> 0 <= b -> 0 <= a + b.
Proof. intros. lra. Qed.

Lemma Qdiv_nonneg_const a b : 0 <= a -> 0 < b -> 0 <= a / b.
Proof. intros Ha Hb. apply Qle_shift_div_l; [exact Hb | lra]. Qed.

Ltac nonneg :=
  repeat first
    [ assumption
    | apply Qplus_nonneg
    | apply Qmult_le_0_compat
    | apply Qdiv_nonneg_const; [| reflexivity]
    | discriminate ].

(** X4.  The income entries of the engine's dictionary are consistent: the
    total is the sum of the storage, short-term, realization, loan and VIP
    incomes (the marketing income is always 0), and the realization income is
    the sum of the four per-class realizations. *)
Theorem financials_income_breakdown (p : WarehouseParams) (disable_extended : bool) :
  exists fin p' total storage short realization loan vip marketing r1 r2 r3 r4,
    calculate_financials p disable_extended = Ok (fin, p') /\
    fin !! "total_income" = Some total /\
    fin !! "storage_income" = Some storage /\
    fin !! "short_term_income" = Some short /\
    fin !! "realization_income" = Some realization /\
    fin !! "loan_income_after_realization" = Some loan /\
    fin !! "vip_income" = Some vip /\
    fin !! "marketing_income" = Some marketing /\
    fin !! "storage_realization" = Some r1 /\
    fin !! "loan_realization" = Some r2 /\
    fin !! "vip_realization" = Some r3 /\
    fin !! "short_term_realization" = Some r4 /\
    marketing = 0 /\
    total == storage + short + realization + loan + vip /\
    realization == r1 + r2 + r3 + r4.
Proof.
  unfold calculate_financials.
  destruct (set_one_time_expenses_fields (one_time_total p) p) as (E1 & E2 & E3).
  fold (one_time_total p). rewrite E1, E2, E3.
  destruct (0 <? time_horizon p)%Z eqn:Eh.
  - apply Z.ltb_lt in Eh. rewrite div_ok by (apply inject_Z_pos_nonzero; exact Eh).
    do 13 eexists. split; [reflexivity|].
    do 11 (split; [reflexivity|]). split; [reflexivity|]. split; [ring | reflexivity].
  - do 13 eexists. split; [reflexivity|].
    do 11 (split; [reflexivity|]). split; [reflexivity|]. split; [ring | reflexivity].
Qed.

(** X5.  On a record with non-negative inputs and a default probability of
    at most 1 the engine's total income, total expenses and four item counts
    are not negative. *)
Theorem financials_nonnegative (p : WarehouseParams) (disable_extended : bool) :
  nonnegative_inputs p ->
  exists fin p' income expenses n1 n2 n3 n4,
    calculate_financials p disable_extended = Ok (fin, p') /\
    fin !! "total_income" = Some income /\
    fin !! "total_expenses" = Some expenses /\
    fin !! "storage_items" = Some n1 /\
    fin !! "loan_items" = Some n2 /\
    fin !! "vip_items" = Some n3 /\
    fin !! "short_term_items" = Some n4 /\
    0 <= income /\ 0 <= expenses /\ 0 <= n1 /\ 0 <= n2 /\ 0 <= n3 /\ 0 <= n4.
Proof.
  intros (H1 & H2 & H3 & H4 & H5 & H6 & H7 & H8 & H9 & H10 & H11 & H12 & H13 & H14
          & H15 & H16 & H17 & H18 & H19 & H20 & H21 & H22 & H23 & H24 & H25 & H26
          & H27 & H28 & H29 & H30).
  assert (Hd : 0 <= 1 - default_probability p) by lra.
  unfold calculate_financials.
  destruct (set_one_time_expenses_fields (one_time_total p) p) as (E1 & E2 & E3).
  fold (one_time_total p). rewrite E1, E2, E3.
  destruct (0 <? time_horizon p)%Z eqn:Eh.
  - apply Z.ltb_lt in Eh. rewrite div_ok by (apply inject_Z_pos_nonzero; exact Eh).
    do 8 eexists. split; [reflexivity|]. do 6 (split; [reflexivity|]).
    unfold calculate_items.
    destruct (ltb 0 (loan_interest_rate p)) eqn:Er; cmp_to_prop;
      repeat split; nonneg; lra.
  - do 8 eexists. split; [reflexivity|]. do 6 (split; [reflexivity|]).
    unfold calculate_items.
    destruct (ltb 0 (loan_interest_rate p)) eqn:Er; cmp_to_prop;
      repeat split; nonneg; lra.
Qed.

Lemma financials_nonnegative_witness :
  exists fin p' income expenses n1 n2 n3 n4,
    calculate_financials example_allocated false = Ok (fin, p') /\
    fin !! "total_income" = Some income /\
    fin !! "total_expenses" = Some expenses /\
    fin !! "storage_items" = Some n1 /\
    fin !! "loan_items" = Some n2 /\
    fin !! "vip_items" = Some n3 /\
    fin !! "short_term_items" = Some n4 /\
    0 <= income /\ 0 <= expenses /\ 0 <= n1 /\ 0 <= n2 /\ 0 <= n3 /\ 0 <= n4.
Proof.
  apply financials_nonnegative.
  unfold nonnegative_inputs. repeat split; discriminate.
Defined.


Lemma example_financials_run :
  calculate_financials example_allocated false = Ok (example_financials, example_final).
Proof.
  unfold example_financials, example_final, financials_of, params_after_financials.
  destruct (total_bep_after_financials example_allocated false)
    as (fin & q & ? & ? & -> & _). reflexivity.
Qed.

Lemma calculate_financials_overwrites v p b :
  calculate_financials (set_one_time_expenses v p) b = calculate_financials p b.
Proof. destruct p. reflexivity. Qed.

Lemma calculate_financials_record p b fin p' :
  calculate_financials p b = Ok (fin, p') ->
  p' = set_one_time_expenses (one_time_total p) p.
Proof.
  unfold calculate_financials. fold (one_time_total p).
  destruct (0 <? time_horizon (set_one_time_expenses (one_time_total p) p))%Z.
  - destruct (_ // _); cbn [mbind result_bind]; [|discriminate].
    intros H. injection H as _ <-. reflexivity.
  - intros H. injection H as _ <-. reflexivity.
Qed.

Lemma calculate_financials_entries (p : WarehouseParams) (disable_extended : bool) :
  exists fin income monthly profit,
    calculate_financials p disable_extended
      = Ok (fin, set_one_time_expenses (one_time_total p) p) /\
    fin !! "total_income" = Some income /\
    fin !! "total_expenses" = Some monthly /\
    fin !! "profit" = Some profit /\
    monthly = monthly_expenses p /\
    profit == income - monthly - amortized_one_time p.
Proof.
  unfold calculate_financials, amortized_one_time.
  destruct (set_one_time_expenses_fields (one_time_total p) p) as (E1 & E2 & E3).
  fold (one_time_total p). rewrite E1, E2, E3.
  destruct (0 <? time_horizon p)%Z eqn:Eh.
  - apply Z.ltb_lt in Eh. rewrite div_ok by (apply inject_Z_pos_nonzero; exact Eh).
    do 4 eexists. split; [reflexivity|]. do 4 (split; [reflexivity|]). reflexivity.
  - do 4 eexists. split; [reflexivity|]. do 4 (split; [reflexivity|]). ring.
Qed.

(** X6.  The engine changes the record only by storing the one-time total,
    and running it again on the record it returned gives the same dictionary
    and the same record. *)
Theorem financials_idempotent (p : WarehouseParams) (disable_extended : bool)
  (fin : gmap string Q) (p' : WarehouseParams) :
  calculate_financials p disable_extended = Ok (fin, p') ->
  p' = set_one_time_expenses (one_time_total p) p
  /\ calculate_financials p' disable_extended = Ok (fin, p').
Proof.
  intros H. pose proof (calculate_financials_record _ _ _ _ H) as E.
  split; [exact E|].
  rewrite E at 1. rewrite calculate_financials_overwrites. rewrite H. reflexivity.
Qed.

Lemma financials_idempotent_witness :
  example_final = set_one_time_expenses (one_time_total example_allocated) example_allocated
  /\ calculate_financials example_final false = Ok (example_financials, example_final).
Proof. exact (financials_idempotent _ _ _ _ example_financials_run). Defined.

(** X7.  What the engine reports as profit is its total income minus the
    break-even income computed from the same dictionary and record, for
    every horizon; so the profit is non-negative exactly when the income
    reaches the break-even income. *)
Theorem profit_is_income_minus_bep (p : WarehouseParams) (disable_extended : bool)
  (fin : gmap string Q) (p' : WarehouseParams) (income profit bep : Q) :
  calculate_financials p disable_extended = Ok (fin, p') ->
  fin !! "total_income" = Some income ->
  fin !! "profit" = Some profit ->
  calculate_total_bep fin p' = Ok (Fin bep) ->
  profit == income - bep /\ (0 <= profit <-> bep <= income).
Proof.
  intros Hc Hi Hp Hbep.
  destruct (calculate_financials_entries p disable_extended)
    as (fin0 & income0 & monthly & profit0 & Hc0 & Hi0 & Hm0 & Hp0 & _ & Hprofit).
  rewrite Hc in Hc0. injection Hc0 as <- ->.
  rewrite Hi in Hi0. injection Hi0 as <-. rewrite Hp in Hp0. injection Hp0 as <-.
  destruct (set_one_time_expenses_fields (one_time_total p) p) as (E1 & E2 & _).
  destruct (calculate_total_bep_cases fin (set_one_time_expenses (one_time_total p) p)
              income monthly Hi Hm0) as (H0 & Hpos & Hneg).
  assert (E : profit == income - bep).
  { destruct (Qeq_dec income 0) as [Hz|Hnz].
    - rewrite (H0 Hz) in Hbep. discriminate.
    - unfold amortized_one_time in Hprofit. rewrite E1, E2 in *.
      destruct (0 <? time_horizon p)%Z eqn:Eh.
      + apply Z.ltb_lt in Eh. rewrite (Hpos Hnz Eh) in Hbep. injection Hbep as <-.
        rewrite Hprofit. ring.
      + apply Z.ltb_ge in Eh. rewrite (Hneg Hnz Eh) in Hbep. injection Hbep as <-.
        rewrite Hprofit. ring. }
  split; [exact E|]. rewrite E. split; intros; lra.
Qed.

Lemma profit_is_income_minus_bep_witness :
  exists income profit bep,
    example_financials !! "total_income" = Some income /\
    example_financials !! "profit" = Some profit /\
    calculate_total_bep example_financials example_final = Ok (Fin bep) /\
    profit == income - bep /\ (0 <= profit <-> bep <= income).
Proof.
  eexists _, _, _.
  split; [vm_compute; reflexivity|]. split; [vm_compute; reflexivity|].
  split; [vm_compute; reflexivity|].
  eapply profit_is_income_minus_bep;
    [exact example_financials_run | vm_compute; reflexivity
    | vm_compute; reflexivity | vm_compute; reflexivity].
Defined.

Lemma min_loan_amount_for_bep_positive (p : WarehouseParams) (fin : gmap string Q)
  (monthly L : Q) :
  fin !! "total_expenses" = Some monthly ->
  fin !! "loan_items" = Some L ->
  0 < L ->
  min_loan_amount_for_bep p fin =
    Ok (floor_at_zero (required_expense monthly p / L / (daily_rate p * 30))).
Proof.
  intros Hm HL H. unfold min_loan_amount_for_bep.
  rewrite (getitem_Some _ _ _ Hm), (getitem_Some _ _ _ HL).
  assert (Hexp :
    (if (0 <? time_horizon p)%Z
     then monthly0 ← Ok monthly;
          amortized ← one_time_expenses p // inject_Z (time_horizon p);
          Ok (monthly0 + amortized)
     else Ok monthly) = Ok (required_expense monthly p)).
  { unfold required_expense.
    destruct (0 <? time_horizon p)%Z eqn:Eh; destruct (Z_lt_le_dec 0 (time_horizon p));
      try (apply Z.ltb_lt in Eh); try (apply Z.ltb_ge in Eh); try lia; try reflexivity.
    cbn [mbind result_bind]. rewrite div_ok by (apply inject_Z_pos_nonzero; lia).
    reflexivity. }
  rewrite Hexp. cbn [mbind result_bind].
  assert (Hrate :
    (if ltb 0 (loan_interest_rate p) then loan_interest_rate p / 100 else 1 # 10000)
    = daily_rate p).
  { unfold daily_rate.
    destruct (ltb 0 (loan_interest_rate p)) eqn:E;
      destruct (Qlt_le_dec 0 (loan_interest_rate p));
      cmp_to_prop; try reflexivity; exfalso; lra. }
  rewrite Hrate. apply leb_false in H as E. rewrite E.
  rewrite div_ok by lra. cbn [mbind result_bind].
  pose proof (daily_rate_pos p).
  rewrite div_ok by lra. cbn [mbind result_bind].
  now rewrite max_zero_floor.
Qed.

(** X8.  With a positive loan item count L the minimum loan per item v is
    not negative, and when the required expense E is not negative the interest
    on L loans of v at the daily rate over 30 days is exactly E; a negative E
    gives v = 0. *)
Theorem min_loan_covers_expense (p : WarehouseParams) (fin : gmap string Q)
  (monthly L : Q) :
  fin !! "total_expenses" = Some monthly ->
  fin !! "loan_items" = Some L ->
  0 < L ->
  exists v,
    min_loan_amount_for_bep p fin = Ok v /\ 0 <= v /\
    (0 <= required_expense monthly p ->
       L * v * (daily_rate p * 30) == required_expense monthly p) /\
    (required_expense monthly p < 0 -> v == 0).
Proof.
  intros Hm HL H.
  rewrite (min_loan_amount_for_bep_positive p fin monthly L Hm HL H).
  eexists. split; [reflexivity|].
  pose proof (daily_rate_pos p) as Hr.
  set (E := required_expense monthly p). set (r := daily_rate p) in *.
  assert (Hden : 0 < L * (r * 30)) by nra.
  assert (Hq : E / L / (r * 30) == E / (L * (r * 30))) by (field; split; lra).
  unfold floor_at_zero.
  destruct (Qlt_le_dec (E / L / (r * 30)) 0) as [Hlt|Hge].
  - split; [lra|]. split; [|reflexivity].
    intros HE. exfalso. rewrite Hq in Hlt.
    assert (0 <= E / (L * (r * 30))) by (apply Qle_shift_div_l; lra). lra.
  - split; [exact Hge|]. split.
    + intros _. field. split; lra.
    + intros HE. exfalso. rewrite Hq in Hge.
      assert (E / (L * (r * 30)) < 0) by (apply Qlt_shift_div_r; lra). lra.
Qed.

Lemma min_loan_covers_expense_witness :
  exists monthly L v,
    example_financials !! "total_expenses" = Some monthly /\
    example_financials !! "loan_items" = Some L /\
    min_loan_amount_for_bep example_final example_financials = Ok v /\
    0 <= v /\
    L * v * (daily_rate example_final * 30) == required_expense monthly example_final.
Proof.
  assert (Hm : exists monthly, example_financials !! "total_expenses" = Some monthly)
    by (eexists; vm_compute; reflexivity).
  assert (HL : exists L, example_financials !! "loan_items" = Some L /\ 0 < L)
    by (eexists; split; [vm_compute; reflexivity | reflexivity]).
  destruct Hm as [monthly Hm]. destruct HL as [L [HL Hpos]].
  destruct (min_loan_covers_expense example_final example_financials monthly L Hm HL Hpos)
    as (v & Hv & Hge & Hcover & _).
  exists monthly, L, v. split; [exact Hm|]. split; [exact HL|]. split; [exact Hv|].
  split; [exact Hge|]. apply Hcover.
  vm_compute in Hm. injection Hm as <-. discriminate.
Defined.

(** X9.  A dictionary that lacks a key makes the break-even calculator and
    the minimum-loan solver raise [KeyError] for the first key they read:
    total_income before total_expenses in the former, total_expenses before
    loan_items in the latter. *)
Theorem missing_key_raises (p : WarehouseParams) (fin : gmap string Q) :
  (fin !! "total_income" = None ->
     calculate_total_bep fin p = Raise (KeyError "total_income"))
  /\ (is_Some (fin !! "total_income") -> fin !! "total_expenses" = None ->
        calculate_total_bep fin p = Raise (KeyError "total_expenses"))
  /\ (fin !! "total_expenses" = None ->
        min_loan_amount_for_bep p fin = Raise (KeyError "total_expenses"))
  /\ (is_Some (fin !! "total_expenses") -> fin !! "loan_items" = None ->
        min_loan_amount_for_bep p fin = Raise (KeyError "loan_items")).
Proof.
  unfold calculate_total_bep, min_loan_amount_for_bep.
  split; [|split; [|split]].
  - intros H. now rewrite (getitem_None _ _ H).
  - intros [x Hx] H. now rewrite (getitem_Some _ _ _ Hx), (getitem_None _ _ H).
  - intros H. rewrite (getitem_None _ _ H). now destruct (0 <? time_horizon p)%Z.
  - intros [x Hx] H. rewrite (getitem_Some _ _ _ Hx), (getitem_None _ _ H).
    destruct (0 <? time_horizon p)%Z eqn:Eh; [|reflexivity].
    apply Z.ltb_lt in Eh. cbn [mbind result_bind].
    rewrite div_ok by (apply inject_Z_pos_nonzero; exact Eh). reflexivity.
Qed.

Lemma missing_key_raises_witness :
  calculate_total_bep ∅ example_params = Raise (KeyError "total_income")
  /\ calculate_total_bep {[ "total_income" := 5 ]} example_params
     = Raise (KeyError "total_expenses")
  /\ min_loan_amount_for_bep example_params ∅ = Raise (KeyError "total_expenses")
  /\ min_loan_amount_for_bep example_params {[ "total_expenses" := 5 ]}
     = Raise (KeyError "loan_items").
Proof.
  split; [|split; [|split]].
  - apply (missing_key_raises example_params ∅). reflexivity.
  - apply (missing_key_raises example_params {[ "total_income" := 5 ]});
      [eexists; reflexivity | reflexivity].
  - apply (missing_key_raises example_params ∅). reflexivity.
  - apply (missing_key_raises example_params {[ "total_expenses" := 5 ]});
      [eexists; reflexivity | reflexivity].
Defined.

(** X10.  On the engine's output the ROI is the profitability plus the
    amortized one-time costs as a percentage of the monthly expenses: the
    ROI leaves the one-time costs out, the profitability charges them. *)
Theorem roi_exceeds_profitability (p : WarehouseParams) (disable_extended : bool)
  (fin : gmap string Q) (p' : WarehouseParams)
  (income expenses profit margin profitability roi : Q) :
  calculate_financials p disable_extended = Ok (fin, p') ->
  fin !! "total_income" = Some income ->
  fin !! "total_expenses" = Some expenses ->
  fin !! "profit" = Some profit ->
  calculate_additional_metrics income expenses profit = Ok (margin, profitability) ->
  calculate_roi income expenses = Ok (Fin roi) ->
  roi - profitability == amortized_one_time p / expenses * 100.
Proof.
  intros Hc Hi He Hp Hmetrics Hroi.
  destruct (calculate_financials_entries p disable_extended)
    as (fin0 & income0 & monthly & profit0 & Hc0 & Hi0 & Hm0 & Hp0 & _ & Hprofit).
  rewrite Hc in Hc0. injection Hc0 as <- _.
  rewrite Hi in Hi0. injection Hi0 as <-. rewrite Hp in Hp0. injection Hp0 as <-.
  rewrite He in Hm0. injection Hm0 as <-.
  destruct (Qeq_dec expenses 0) as [Hz|Hnz].
  - unfold calculate_roi, calculate_roi_body in Hroi.
    apply eqb_true in Hz. rewrite Hz in Hroi. discriminate.
  - rewrite (calculate_roi_nonzero income expenses Hnz) in Hroi. injection Hroi as <-.
    destruct (profitability_nonzero income expenses profit Hnz) as (m & Hm').
    rewrite Hmetrics in Hm'. injection Hm' as _ ->.
    rewrite Hprofit. field. exact Hnz.
Qed.

Lemma roi_exceeds_profitability_witness :
  exists income expenses profit margin profitability roi,
    example_financials !! "total_income" = Some income /\
    example_financials !! "total_expenses" = Some expenses /\
    example_financials !! "profit" = Some profit /\
    calculate_additional_metrics income expenses profit = Ok (margin, profitability) /\
    calculate_roi income expenses = Ok (Fin roi) /\
    roi - profitability == amortized_one_time example_allocated / expenses * 100.
Proof.
  do 6 eexists.
  split; [vm_compute; reflexivity|]. split; [vm_compute; reflexivity|].
  split; [vm_compute; reflexivity|]. split; [vm_compute; reflexivity|].
  split; [vm_compute; reflexivity|].
  eapply roi_exceeds_profitability;
    [exact example_financials_run | vm_compute; reflexivity | vm_compute; reflexivity
    | vm_compute; reflexivity | vm_compute; reflexivity | vm_compute; reflexivity].
Defined.

(** ** More on the validator, and the validator before the allocator *)

Lemma validate_inputs_ok_iff (p : WarehouseParams) :
  validate_inputs p = (true, Text EmptyString) <->
  0 < total_area p /\ 0 < useful_area_ratio p <= 1 /\
  (mode p = mode_auto -> epsilon <= Qabs (total_share p) /\ total_share p <= 1) /\
  (mode p <> mode_auto ->
     ~ total_manual p == 0 /\ total_manual p <= total_area p * useful_area_ratio p).
Proof.
  unfold validate_inputs. fold (total_share p). fold (total_manual p).
  destruct (leb (total_area p) 0) eqn:Ea; cmp_to_prop.
  { split; [discriminate|]. intros [H _]. exfalso. lra. }
  destruct (ltb 0 (useful_area_ratio p)) eqn:Er1; cmp_to_prop; cbn [andb negb].
  2:{ split; [discriminate|]. intros (_ & [H _] & _). exfalso. lra. }
  destruct (leb (useful_area_ratio p) 1) eqn:Er2; cmp_to_prop; cbn [negb].
  2:{ split; [discriminate|]. intros (_ & [_ H] & _). exfalso. lra. }
  destruct (String.eqb_spec (mode p) mode_auto) as [Hm|Hm].
  - destruct (ltb (Qabs (total_share p)) epsilon) eqn:E1; cmp_to_prop.
    { split; [discriminate|]. intros (_ & _ & H & _). destruct (H Hm). exfalso. lra. }
    destruct (ltb 1 (total_share p)) eqn:E2; cmp_to_prop.
    { split; [discriminate|]. intros (_ & _ & H & _). destruct (H Hm). exfalso. lra. }
    split; [|reflexivity]. intros _. repeat split; try assumption; tauto.
  - destruct (eqb (total_manual p) 0) eqn:E1; cmp_to_prop.
    { split; [discriminate|]. intros (_ & _ & _ & H). destruct (H Hm). contradiction. }
    destruct (ltb (total_area p * useful_area_ratio p) (total_manual p)) eqn:E2;
      cmp_to_prop.
    { split; [discriminate|]. intros (_ & _ & _ & H). destruct (H Hm). exfalso. lra. }
    split; [|reflexivity]. intros _. repeat split; try assumption; tauto.
Qed.

Lemma validate_inputs_ok_message (p : WarehouseParams) :
  fst (validate_inputs p) = true <-> validate_inputs p = (true, Text EmptyString).
Proof.
  split; [|intros ->; reflexivity].
  unfold validate_inputs.
  repeat match goal with
         | |- context [if ?b then _ else _] => destruct b; cbn [fst]
         end; intros; try discriminate; reflexivity.
Qed.

(** X11.  The validator accepts a record exactly when the total area is
    positive, the ratio is in (0, 1], and, in proportional mode, the share
    sum is at least 1e-9 in absolute value and at most 1, or, in manual mode,
    the manual sum is not zero and at most the usable area.  An accepted
    record always comes with the empty message. *)
Theorem validate_inputs_accepts_iff (p : WarehouseParams) :
  (fst (validate_inputs p) = true <->
   0 < total_area p /\ 0 < useful_area_ratio p <= 1 /\
   (mode p = mode_auto -> epsilon <= Qabs (total_share p) /\ total_share p <= 1) /\
   (mode p <> mode_auto ->
      ~ total_manual p == 0 /\ total_manual p <= total_area p * useful_area_ratio p))
  /\ (fst (validate_inputs p) = true -> snd (validate_inputs p) = Text EmptyString).
Proof.
  split.
  - rewrite validate_inputs_ok_message. apply validate_inputs_ok_iff.
  - intros H. apply validate_inputs_ok_message in H. now rewrite H.
Qed.

Lemma validate_inputs_accepts_iff_witness :
  0 < total_area fitting_record /\ 0 < useful_area_ratio fitting_record <= 1 /\
  ~ total_manual fitting_record == 0 /\
  total_manual fitting_record <= total_area fitting_record * useful_area_ratio fitting_record /\
  snd (validate_inputs fitting_record) = Text EmptyString.
Proof.
  destruct (validate_inputs_accepts_iff fitting_record) as [[H _] Hmsg].
  assert (Hv : fst (validate_inputs fitting_record) = true) by reflexivity.
  destruct (H Hv) as (Ha & Hr & _ & Hman).
  destruct Hman as [Hnz Hfit]; [discriminate|].
  split; [exact Ha|]. split; [exact Hr|]. split; [exact Hnz|]. split; [exact Hfit|].
  exact (Hmsg Hv).
Defined.

(** X12.  In manual mode, area and ratio being in range, a manual sum of
    zero is rejected with the zero-sum message and a non-zero sum above the
    usable area is rejected with a message that carries the sum and the usable
    area; a negative manual sum is accepted. *)
Theorem validate_inputs_manual_rules (p : WarehouseParams) :
  0 < total_area p -> 0 < useful_area_ratio p <= 1 -> mode p <> mode_auto ->
  let usable := total_area p * useful_area_ratio p in
  (total_manual p == 0 -> validate_inputs p = (false, msg_manual_zero))
  /\ (~ total_manual p == 0 -> usable < total_manual p ->
        validate_inputs p = (false, ManualExceeds (total_manual p) usable))
  /\ (total_manual p < 0 -> validate_inputs p = (true, Text EmptyString)).
Proof.
  intros Ha [Hr1 Hr2] Hm usable. unfold validate_inputs.
  fold (total_manual p). fold usable.
  apply leb_false in Ha as E0. apply ltb_true in Hr1 as E1. apply leb_true in Hr2 as E2.
  rewrite E0, E1, E2. cbn [andb negb]. rewrite (mode_manual_eqb p Hm).
  split; [|split].
  - intros H. apply eqb_true in H. now rewrite H.
  - intros H1 H2. apply eqb_false in H1. apply ltb_true in H2. now rewrite H1, H2.
  - intros H.
    assert (H1 : ~ total_manual p == 0) by lra. apply eqb_false in H1.
    assert (H2 : total_manual p <= usable)
      by (pose proof (Qmult_lt_0_compat _ _ Ha Hr1); unfold usable; lra).
    apply ltb_false in H2. now rewrite H1, H2.
Qed.

Lemma validate_inputs_manual_rules_witness :
  validate_inputs (with_geometry 100 0.8 mode_manual (0, 0, 0, 0) (0, 0, 0, 0)
                     example_params) = (false, msg_manual_zero)
  /\ validate_inputs overflow_record
     = (false, ManualExceeds (total_manual overflow_record)
                 (total_area overflow_record * useful_area_ratio overflow_record))
  /\ validate_inputs (with_geometry 100 0.8 mode_manual (0, 0, 0, 0) (-5, 0, 0, 0)
                        example_params) = (true, Text EmptyString).
Proof.
  split; [|split].
  - apply (validate_inputs_manual_rules _);
      [reflexivity | split; [reflexivity | discriminate] | discriminate | reflexivity].
  - apply (validate_inputs_manual_rules overflow_record);
      [reflexivity | split; [reflexivity | discriminate] | discriminate
      | discriminate | reflexivity].
  - apply (validate_inputs_manual_rules _);
      [reflexivity | split; [reflexivity | discriminate] | discriminate | reflexivity].
Defined.

(** X13.  For a record the validator accepts in manual mode the allocator
    returns the four manual areas unchanged: after validation the overflow
    scaling is never applied. *)
Theorem validated_manual_areas_unchanged (p : WarehouseParams) :
  fst (validate_inputs p) = true -> mode p <> mode_auto ->
  calculate_areas p =
    Ok (areas_dict (total_area p * useful_area_ratio p)
          (storage_area_manual p) (loan_area_manual p)
          (vip_area_manual p) (short_term_area_manual p)).
Proof.
  intros Hv Hm. apply validate_inputs_ok_message in Hv.
  apply validate_inputs_ok_iff in Hv. destruct Hv as (_ & _ & _ & H).
  destruct (H Hm) as [_ Hfit].
  apply (calculate_areas_unchanged p Hm). left. exact Hfit.
Qed.

Lemma validated_manual_areas_unchanged_witness :
  calculate_areas fitting_record
  = Ok (areas_dict (total_area fitting_record * useful_area_ratio fitting_record)
          10 20 30 10).
Proof.
  apply (validated_manual_areas_unchanged fitting_record); [reflexivity | discriminate].
Defined.

(** X14.  For a record the validator accepts in proportional mode with a
    non-negative share sum, the allocator zeroes nothing: each class gets
    usable * share / sum, the usable area is positive and the four areas add
    up to it exactly. *)
Theorem validated_proportional_fills_usable (p : WarehouseParams) :
  fst (validate_inputs p) = true -> mode p = mode_auto -> 0 <= total_share p ->
  exists d u s l v t,
    calculate_areas p = Ok d /\ area_values d = Some (u, s, l, v, t) /\
    s + l + v + t == u /\ 0 < u /\
    s == u * storage_share p / total_share p /\
    l == u * loan_share p / total_share p /\
    v == u * vip_share p / total_share p /\
    t == u * short_term_share p / total_share p.
Proof.
  intros Hv Hm Hts. apply validate_inputs_ok_message in Hv.
  apply validate_inputs_ok_iff in Hv. destruct Hv as (Ha & [Hr _] & H & _).
  destruct (H Hm) as [Habs _].
  rewrite Qabs_pos in Habs by exact Hts.
  assert (Hnz : ~ total_share p == 0) by (unfold epsilon in Habs; lra).
  do 6 eexists. split; [exact (calculate_areas_normalised p Hm Habs)|].
  split; [apply area_values_areas_dict|].
  split; [unfold total_share in *; field; exact Hnz|].
  split; [nra|].
  repeat split; field; exact Hnz.
Qed.

Lemma validated_proportional_fills_usable_witness :
  exists d u s l v t,
    calculate_areas example_params = Ok d /\ area_values d = Some (u, s, l, v, t) /\
    s + l + v + t == u /\ 0 < u.
Proof.
  destruct (validated_proportional_fills_usable example_params)
    as (d & u & s & l & v & t & Hd & Hv & Hsum & Hu & _);
    [reflexivity | reflexivity | discriminate |].
  exists d, u, s, l, v, t. repeat split; assumption.
Defined.

(** ** The helpers of utils.py *)

Lemma calculate_total_bep_utils_present (financials : gmap string Q)
  (income expenses : Q) :
  financials !! "total_income" = Some income ->
  financials !! "total_expenses" = Some expenses ->
  calculate_total_bep_utils financials
  = Ok (Some (if eqb income 0 then PosInf else Fin (expenses / income * 100))).
Proof.
  intros Hi He. unfold calculate_total_bep_utils.
  rewrite (getitem_Some _ _ _ Hi), (getitem_Some _ _ _ He). cbn [mbind result_bind].
  destruct (eqb income 0) eqn:E; [reflexivity|].
  cmp_to_prop. now rewrite div_ok by exact E.
Qed.

(** X15.  [calculate_total_bep_utils] never raises: it returns [None] when
    either key is missing, positive infinity when total_income is 0, and
    otherwise total_expenses as a percentage of total_income. *)
Theorem total_bep_utils_total (financials : gmap string Q) :
  (financials !! "total_income" = None \/ financials !! "total_expenses" = None ->
     calculate_total_bep_utils financials = Ok None)
  /\ (forall income expenses,
        financials !! "total_income" = Some income ->
        financials !! "total_expenses" = Some expenses ->
        (income == 0 -> calculate_total_bep_utils financials = Ok (Some PosInf))
        /\ (~ income == 0 ->
              calculate_total_bep_utils financials
              = Ok (Some (Fin (expenses / income * 100))))).
Proof.
  unfold calculate_total_bep_utils. split.
  - intros [H|H].
    + now rewrite (getitem_None _ _ H).
    + rewrite (getitem_None _ "total_expenses" H).
      destruct (financials !! "total_income") as [x|] eqn:Hi.
      * now rewrite (getitem_Some _ _ _ Hi).
      * now rewrite (getitem_None _ _ Hi).
  - intros income expenses Hi He.
    rewrite (getitem_Some _ _ _ Hi), (getitem_Some _ _ _ He). cbn [mbind result_bind].
    split; intros H.
    + apply eqb_true in H. now rewrite H.
    + apply eqb_false in H as Hb. rewrite Hb. now rewrite div_ok by exact H.
Qed.

Lemma total_bep_utils_total_witness :
  calculate_total_bep_utils ∅ = Ok None
  /\ calculate_total_bep_utils {[ "total_income" := 0; "total_expenses" := 7 ]}
     = Ok (Some PosInf)
  /\ calculate_total_bep_utils {[ "total_income" := 200; "total_expenses" := 50 ]}
     = Ok (Some (Fin (50 / 200 * 100))).
Proof.
  split; [|split].
  - apply (total_bep_utils_total ∅). left. reflexivity.
  - apply (proj2 (total_bep_utils_total
                    {[ "total_income" := 0; "total_expenses" := 7 ]}) 0 7);
      reflexivity.
  - apply (proj2 (total_bep_utils_total
                    {[ "total_income" := 200; "total_expenses" := 50 ]}) 200 50);
      [reflexivity | reflexivity | discriminate].
Defined.

(** X16.  On a dictionary holding both keys the two break-even helpers
    report "unreachable" together: [calculate_total_bep] returns positive
    infinity exactly when [calculate_total_bep_utils] does. *)
Theorem total_bep_utils_vs_core (financials : gmap string Q) (params : WarehouseParams)
  (income expenses : Q) :
  financials !! "total_income" = Some income ->
  financials !! "total_expenses" = Some expenses ->
  (calculate_total_bep financials params = Ok PosInf <->
   calculate_total_bep_utils financials = Ok (Some PosInf)).
Proof.
  intros Hi He.
  destruct (calculate_total_bep_cases financials params income expenses Hi He)
    as (H0 & Hpos & Hneg).
  rewrite (calculate_total_bep_utils_present financials income expenses Hi He).
  destruct (Qeq_dec income 0) as [Hz|Hnz].
  - rewrite (H0 Hz). apply eqb_true in Hz. rewrite Hz. tauto.
  - apply eqb_false in Hnz as Eb. rewrite Eb.
    destruct (Z_lt_le_dec 0 (time_horizon params)) as [Hh|Hh].
    + rewrite (Hpos Hnz Hh). split; discriminate.
    + rewrite (Hneg Hnz Hh). split; discriminate.
Qed.

Lemma total_bep_utils_vs_core_witness :
  calculate_total_bep idle_financials idle_final = Ok PosInf <->
  calculate_total_bep_utils idle_financials = Ok (Some PosInf).
Proof.
  eapply total_bep_utils_vs_core; vm_compute; reflexivity.
Defined.

(** X17.  [calculate_irr_utils] never raises.  It returns [None] without
    consulting the root-finder for fewer than two cash flows or a first cash
    flow that is not negative; and whenever it returns a value,
    [calculate_irr] returns the same value for the same root-finder. *)
Theorem irr_utils_guards (np_irr : list Q -> irr_outcome) (cash_flows : list Q) :
  (exists r, calculate_irr_utils np_irr cash_flows = Ok r)
  /\ ((length cash_flows < 2)%nat -> calculate_irr_utils np_irr cash_flows = Ok None)
  /\ (forall first rest, cash_flows = first :: rest -> 0 <= first ->
        calculate_irr_utils np_irr cash_flows = Ok None)
  /\ (forall v, calculate_irr_utils np_irr cash_flows = Ok (Some v) ->
        calculate_irr np_irr cash_flows = Ok v).
Proof.
  unfold calculate_irr_utils, calculate_irr.
  destruct cash_flows as [|first rest].
  { repeat split; eauto; discriminate. }
  destruct (length (first :: rest) <? 2)%nat eqn:El.
  { apply Nat.ltb_lt in El. repeat split; eauto; discriminate. }
  apply Nat.ltb_ge in El.
  destruct (leb 0 first) eqn:Ef; cmp_to_prop.
  { repeat split; eauto; discriminate. }
  split; [destruct (np_irr (first :: rest)); cbn; eauto|].
  split; [intros; lia|].
  split.
  - intros f r H Hf. injection H as <- <-. exfalso. lra.
  - intros v. destruct (np_irr (first :: rest)); cbn; intros H;
      try discriminate; injection H as <-; reflexivity.
Qed.

Lemma irr_utils_guards_witness :
  calculate_irr_utils (fun _ => IrrRate 0.0891) [-100000] = Ok None
  /\ calculate_irr_utils (fun _ => IrrRate 0.0891) [100000; 30000; 40000] = Ok None
  /\ calculate_irr (fun _ => IrrRate 0.0891) [-100000; 30000; 40000; 50000]
     = Ok (0.0891 * 100).
Proof.
  split; [|split].
  - apply (irr_utils_guards (fun _ => IrrRate 0.0891) [-100000]). cbn. lia.
  - eapply (irr_utils_guards (fun _ => IrrRate 0.0891) [100000; 30000; 40000]);
      [reflexivity | discriminate].
  - apply (irr_utils_guards (fun _ => IrrRate 0.0891) [-100000; 30000; 40000; 50000]).
    reflexivity.
Defined.

(** X18.  [prepare_cash_flows] raises [KeyError] when the dictionary has no
    profit; otherwise it returns one initial flow, minus the sum of the setup,
    equipment and other one-time costs (the legal and logistics costs are not
    part of it), followed by the profit once per month of the horizon, and by
    nothing for a horizon of zero or less. *)
Theorem prepare_cash_flows_shape (base_financials : gmap string Q)
  (params : WarehouseParams) :
  (base_financials !! "profit" = None ->
     prepare_cash_flows base_financials params = Raise (KeyError "profit"))
  /\ (forall profit, base_financials !! "profit" = Some profit ->
        exists flows,
          prepare_cash_flows base_financials params = Ok flows /\
          length flows = S (Z.to_nat (time_horizon params)) /\
          flows !! 0%nat = Some (- (one_time_setup_cost params
                                    + one_time_equipment_cost params
                                    + one_time_other_costs params)) /\
          (forall i x, flows !! S i = Some x -> x = profit)).
Proof.
  unfold prepare_cash_flows. split.
  - intros H. now rewrite (getitem_None _ _ H).
  - intros profit H. rewrite (getitem_Some _ _ _ H). cbn [mbind result_bind].
    eexists. split; [reflexivity|]. split; [cbn; now rewrite length_replicate|].
    split; [reflexivity|].
    intros i x Hx. cbn in Hx. apply lookup_replicate in Hx. tauto.
Qed.

Lemma prepare_cash_flows_shape_witness :
  prepare_cash_flows ∅ example_params = Raise (KeyError "profit")
  /\ exists flows,
       prepare_cash_flows {[ "profit" := 80000 ]} example_params = Ok flows /\
       length flows = 7%nat /\ flows !! 0%nat = Some (- (100000 + 200000 + 50000)).
Proof.
  split.
  - apply (prepare_cash_flows_shape ∅ example_params). reflexivity.
  - destruct (prepare_cash_flows_shape {[ "profit" := 80000 ]} example_params) as [_ H].
    destruct (H 80000 eq_refl) as (flows & Hf & Hl & H0 & _).
    exists flows. split; [exact Hf|]. split; [exact Hl | exact H0].
Defined.

(** X19.  On the flows [prepare_cash_flows] builds, [calculate_irr_utils]
    returns [None] whenever the horizon is zero or less, or the three initial
    cost lines do not sum to a positive amount; with a positive horizon and a
    positive initial cost the guards pass and a rate found by the root-finder
    is returned as a percentage. *)
Theorem irr_utils_on_prepared_flows (np_irr : list Q -> irr_outcome)
  (base_financials : gmap string Q) (params : WarehouseParams) (flows : list Q) :
  prepare_cash_flows base_financials params = Ok flows ->
  ((time_horizon params <= 0)%Z -> calculate_irr_utils np_irr flows = Ok None)
  /\ (one_time_setup_cost params + one_time_equipment_cost params
      + one_time_other_costs params <= 0 ->
        calculate_irr_utils np_irr flows = Ok None)
  /\ ((0 < time_horizon params)%Z ->
      0 < one_time_setup_cost params + one_time_equipment_cost params
          + one_time_other_costs params ->
      forall rate, np_irr flows = IrrRate rate ->
        calculate_irr_utils np_irr flows = Ok (Some (rate * 100))).
Proof.
  unfold prepare_cash_flows.
  destruct (getitem base_financials "profit") as [profit|e]; [|discriminate].
  cbn [mbind result_bind]. intros H. injection H as <-.
  set (c := one_time_setup_cost params + one_time_equipment_cost params
            + one_time_other_costs params).
  unfold calculate_irr_utils. cbn [length].
  rewrite length_replicate.
  split; [|split].
  - intros Hh. replace (Z.to_nat (time_horizon params)) with 0%nat by lia. reflexivity.
  - intros Hc. destruct (S _ <? 2)%nat; [reflexivity|].
    assert (E : 0 <= - c) by lra. apply leb_true in E. now rewrite E.
  - intros Hh Hc rate Hr.
    assert (El : (S (Z.to_nat (time_horizon params)) <? 2)%nat = false)
      by (apply Nat.ltb_ge; lia).
    rewrite El.
    assert (E : - c < 0) by lra. apply leb_false in E. rewrite E.
    rewrite Hr. reflexivity.
Qed.

Lemma irr_utils_on_prepared_flows_witness :
  exists flows,
    prepare_cash_flows {[ "profit" := 80000 ]} (set_time_horizon 0 example_params)
      = Ok flows
    /\ calculate_irr_utils (fun _ => IrrRate 0.0891) flows = Ok None.
Proof.
  assert (Hp : exists flows,
            prepare_cash_flows {[ "profit" := 80000 ]} (set_time_horizon 0 example_params)
            = Ok flows) by (eexists; reflexivity).
  destruct Hp as [flows Hp]. exists flows. split; [exact Hp|].
  destruct (irr_utils_on_prepared_flows (fun _ => IrrRate 0.0891) _ _ _ Hp)
    as (H & _ & _).
  apply H. vm_compute. discriminate.
Defined.

(** ** main.py: the record handed to the engine *)

Lemma write_back_areas_dict u s l v t p :
  write_back (areas_dict u s l v t) p = set_areas u s l v t p.
Proof. destruct p. reflexivity. Qed.

Lemma calculate_areas_dict (p : WarehouseParams) :
  exists s l v t,
    calculate_areas p = Ok (areas_dict (total_area p * useful_area_ratio p) s l v t).
Proof.
  destruct (String.eqb_spec (mode p) mode_auto) as [Hm|Hm].
  - destruct (Qlt_le_dec (total_share p) epsilon) as [H|H].
    + do 4 eexists. exact (calculate_areas_zero_shares p Hm H).
    + do 4 eexists. exact (calculate_areas_normalised p Hm H).
  - destruct (Qlt_le_dec (total_area p * useful_area_ratio p) (total_manual p)) as [H|H].
    + destruct (Qlt_le_dec 0 (total_manual p)) as [H'|H'].
      * do 4 eexists. exact (calculate_areas_scaled p Hm H H').
      * do 4 eexists. exact (calculate_areas_unchanged p Hm (or_intror H')).
    + do 4 eexists. exact (calculate_areas_unchanged p Hm (or_introl H)).
Qed.

Lemma allocate_for_engine_fields (p : WarehouseParams) (u s l v t : Q) :
  let p1 :=
    set_total_area (total_area p + shelves_per_m2 p * s * SHELF_AREA_PER_SHELF)
      (set_storage_area (s + shelves_per_m2 p * s * SHELF_AREA_PER_SHELF)
         (set_areas u s l v t p)) in
  usable_area p1 = u /\
  storage_area p1 = s + shelves_per_m2 p * s * SHELF_AREA_PER_SHELF /\
  loan_area p1 = l /\ vip_area p1 = v /\ short_term_area p1 = t /\
  total_area p1 = total_area p + shelves_per_m2 p * s * SHELF_AREA_PER_SHELF /\
  useful_area_ratio p1 = useful_area_ratio p.
Proof. destruct p. cbn. repeat split. Qed.

Lemma allocate_for_engine_valid (p : WarehouseParams) (u s l v t : Q) :
  fst (validate_inputs p) = true ->
  calculate_areas p = Ok (areas_dict u s l v t) ->
  allocate_for_engine p =
    Ok (Some
          (set_total_area (total_area p + shelves_per_m2 p * s * SHELF_AREA_PER_SHELF)
             (set_storage_area (s + shelves_per_m2 p * s * SHELF_AREA_PER_SHELF)
                (set_areas u s l v t p)))).
Proof.
  intros Hv Hc. unfold allocate_for_engine.
  destruct (validate_inputs p) as [ok msg]. cbn in Hv. subst ok.
  rewrite Hc. cbn [mbind result_bind]. rewrite write_back_areas_dict.
  destruct p. reflexivity.
Qed.

(** X20.  A record the validator rejects is not allocated.  For an accepted
    record the script writes the allocator's five values back and then adds
    the shelf floor space, 0.1 per shelf, to the storage area and to the total
    area: the usable, loan, VIP and short-term areas are the allocator's, the
    storage area is the allocated one times (1 + 0.1 * shelves_per_m2). *)
Theorem allocate_for_engine_adds_shelves (p : WarehouseParams) :
  (fst (validate_inputs p) = false -> allocate_for_engine p = Ok None)
  /\ (fst (validate_inputs p) = true ->
        exists d u s l v t p1,
          calculate_areas p = Ok d /\ area_values d = Some (u, s, l, v, t) /\
          allocate_for_engine p = Ok (Some p1) /\
          usable_area p1 = u /\
          storage_area p1 = s + shelves_per_m2 p * s * SHELF_AREA_PER_SHELF /\
          loan_area p1 = l /\ vip_area p1 = v /\ short_term_area p1 = t /\
          total_area p1 = total_area p + shelves_per_m2 p * s * SHELF_AREA_PER_SHELF).
Proof.
  split.
  - unfold allocate_for_engine. destruct (validate_inputs p) as [ok msg].
    cbn. now intros ->.
  - intros Hv. destruct (calculate_areas_dict p) as (s & l & v & t & Hc).
    destruct (allocate_for_engine_fields p (total_area p * useful_area_ratio p) s l v t)
      as (F1 & F2 & F3 & F4 & F5 & F6 & _).
    do 7 eexists. split; [exact Hc|]. split; [apply area_values_areas_dict|].
    split; [exact (allocate_for_engine_valid p _ s l v t Hv Hc)|].
    repeat split; assumption.
Qed.

Lemma allocate_for_engine_adds_shelves_witness :
  allocate_for_engine negative_usable_record = Ok None
  /\ exists p1,
       allocate_for_engine example_params = Ok (Some p1) /\
       usable_area p1 == 50 /\ storage_area p1 == 16.25 /\ loan_area p1 == 12.5 /\
       total_area p1 == 103.75.
Proof.
  split.
  - apply (allocate_for_engine_adds_shelves negative_usable_record). reflexivity.
  - destruct (allocate_for_engine_adds_shelves example_params) as [_ H].
    destruct (H eq_refl) as (d & u & s & l & v & t & p1 & Hd & Hv & Hp & F1 & F2 & F3
                             & _ & _ & F6).
    rewrite (calculate_areas_normalised example_params eq_refl) in Hd by discriminate.
    injection Hd as <-. rewrite area_values_areas_dict in Hv.
    injection Hv as <- <- <- <- <-.
    exists p1. split; [exact Hp|]. rewrite F1, F2, F3, F6. repeat split; reflexivity.
Defined.

(** X21.  After the shelf adjustment the record no longer keeps the
    allocator's bound: for an accepted proportional record with a positive
    storage share, a non-negative share sum and a positive shelf density, the
    four areas handed to the engine add up to more than the stored usable
    area, and the stored usable area is less than total_area *
    useful_area_ratio of the enlarged record. *)
Theorem allocate_for_engine_overshoots (p : WarehouseParams) :
  fst (validate_inputs p) = true -> mode p = mode_auto ->
  0 < storage_share p -> 0 <= total_share p -> 0 < shelves_per_m2 p ->
  exists p1,
    allocate_for_engine p = Ok (Some p1) /\
    usable_area p1 == total_area p * useful_area_ratio p /\
    usable_area p1 < storage_area p1 + loan_area p1 + vip_area p1 + short_term_area p1 /\
    usable_area p1 < total_area p1 * useful_area_ratio p1.
Proof.
  intros Hv Hm Hs Hts Hsh.
  pose proof Hv as Hv'. apply validate_inputs_ok_message in Hv'.
  apply validate_inputs_ok_iff in Hv'. destruct Hv' as (Ha & [Hr _] & H & _).
  destruct (H Hm) as [Habs _]. rewrite Qabs_pos in Habs by exact Hts.
  assert (Hpos : 0 < total_share p) by (unfold epsilon in Habs; lra).
  pose proof (calculate_areas_normalised p Hm Habs) as Hc.
  set (u := total_area p * useful_area_ratio p) in *.
  set (s := u * (storage_share p / total_share p)) in *.
  set (l := u * (loan_share p / total_share p)) in *.
  set (v := u * (vip_share p / total_share p)) in *.
  set (t := u * (short_term_share p / total_share p)) in *.
  destruct (allocate_for_engine_fields p u s l v t)
    as (F1 & F2 & F3 & F4 & F5 & F6 & F7).
  eexists. split; [exact (allocate_for_engine_valid p u s l v t Hv Hc)|].
  rewrite F1, F2, F3, F4, F5, F6, F7.
  assert (Hu : 0 < u) by (subst u; nra).
  assert (Hfrac : 0 < storage_share p / total_share p)
    by (apply Qlt_shift_div_l; lra).
  assert (Hs' : 0 < s) by (subst s; nra).
  assert (Hsum : s + l + v + t == u).
  { subst s l v t. unfold total_share in *. field. lra. }
  assert (Hshelf : 0 < shelves_per_m2 p * s * SHELF_AREA_PER_SHELF).
  { unfold SHELF_AREA_PER_SHELF. nra. }
  split; [reflexivity|]. split; [lra|].
  subst u. nra.
Qed.

Lemma allocate_for_engine_overshoots_witness :
  exists p1,
    allocate_for_engine example_params = Ok (Some p1) /\
    usable_area p1 == total_area example_params * useful_area_ratio example_params /\
    usable_area p1 < storage_area p1 + loan_area p1 + vip_area p1 + short_term_area p1 /\
    usable_area p1 < total_area p1 * useful_area_ratio p1.
Proof.
  apply allocate_for_engine_overshoots;
    [reflexivity | reflexivity | reflexivity | discriminate | reflexivity].
Defined.

(** ** More on the Monte Carlo simulator *)

Lemma Qsum_cons (x : Q) (l : list Q) : Qsum (x :: l) = x + Qsum l.
Proof. reflexivity. Qed.

Lemma Qsum_nil : Qsum [] = 0.
Proof. reflexivity. Qed.

Lemma mean_axis0_lookup (cols : nat) (a : list (list Q)) (j : nat) :
  (j < cols)%nat ->
  mean_axis0 cols a !! j = Some (mean (map (fun row => nth j row 0) a)).
Proof.
  intros H. unfold mean_axis0. rewrite list_lookup_fmap.
  rewrite lookup_seq_lt by exact H. reflexivity.
Qed.

Lemma mean_axis0_length (cols : nat) (a : list (list Q)) :
  length (mean_axis0 cols a) = cols.
Proof. unfold mean_axis0. now rewrite length_map, length_seq. Qed.

Lemma nth_zip_with (f : Q -> Q -> Q) (j : nat) (l1 l2 : list Q) :
  (j < length l1)%nat -> (j < length l2)%nat ->
  nth j (zip_with f l1 l2) 0 = f (nth j l1 0) (nth j l2 0).
Proof.
  revert l1 l2. induction j as [|j IH]; intros [|x l1] [|y l2] H1 H2;
    cbn in *; try lia; [reflexivity|].
  apply IH; lia.
Qed.

Lemma column_broadcast_mul (v : list Q) (a : list (list Q)) (j : nat) :
  (j < length v)%nat -> Forall (fun row => length row = length v) a ->
  map (fun row => nth j row 0) (broadcast_mul v a)
  = map (fun row => nth j v 0 * nth j row 0) a.
Proof.
  intros Hj Ha. unfold broadcast_mul. rewrite map_map.
  induction Ha as [|row a Hrow Ha IH]; [reflexivity|].
  cbn [map]. rewrite IH. f_equal. apply nth_zip_with; lia.
Qed.

Lemma Qsum_bounds (lo hi : Q) (l : list Q) :
  Forall (fun x => lo <= x <= hi) l ->
  inject_Z (Z.of_nat (length l)) * lo <= Qsum l
  /\ Qsum l <= inject_Z (Z.of_nat (length l)) * hi.
Proof.
  induction 1 as [|x l [Hx1 Hx2] Hl [IH1 IH2]].
  - rewrite Qsum_nil. change (inject_Z (Z.of_nat (length (@nil Q)))) with 0. split; lra.
  - rewrite Qsum_cons. cbn [length]. rewrite Nat2Z.inj_succ. unfold Z.succ.
    rewrite inject_Z_plus. change (inject_Z 1) with 1. split; lra.
Qed.

Lemma mean_bounds (lo hi : Q) (l : list Q) :
  l <> [] -> Forall (fun x => lo <= x <= hi) l ->
  exists m, mean l = Fin m /\ lo <= m <= hi.
Proof.
  intros Hne Hl. destruct (Qsum_bounds lo hi l Hl) as [H1 H2].
  destruct l as [|x l]; [contradiction|].
  unfold mean. eexists. split; [reflexivity|].
  set (n := inject_Z (Z.of_nat (length (x :: l)))) in *.
  assert (Hn : 0 < n).
  { subst n. rewrite <- (Zlt_Qlt 0). cbn [length]. lia. }
  split.
  - apply Qle_shift_div_l; [exact Hn | lra].
  - apply Qle_shift_div_r; [exact Hn | lra].
Qed.

Lemma Qsum_column_sub (j : nat) (a b : list (list Q)) :
  length a = length b ->
  Forall (fun row => (j < length row)%nat) a ->
  Forall (fun row => (j < length row)%nat) b ->
  Qsum (map (fun row => nth j row 0) (matrix_sub a b))
  == Qsum (map (fun row => nth j row 0) a) - Qsum (map (fun row => nth j row 0) b)
  /\ length (matrix_sub a b) = length a.
Proof.
  intros Hlen Ha. revert b Hlen. unfold matrix_sub.
  induction Ha as [|ra a Hra Ha IH]; intros [|rb b] Hlen Hb; cbn in Hlen; try lia.
  - cbn [zip_with map]. split; [rewrite !Qsum_nil; ring | reflexivity].
  - inversion Hb as [|? ? Hrb Hb']; subst.
    destruct (IH b ltac:(lia) Hb') as [IH1 IH2].
    cbn [zip_with map length].
    rewrite !Qsum_cons, IH1, IH2, nth_zip_with by assumption.
    split; [ring | reflexivity].
Qed.

Lemma broadcast_mul_shape (rows cols : nat) (v : list Q) (a : list (list Q)) :
  length v = cols -> has_shape rows cols a -> has_shape rows cols (broadcast_mul v a).
Proof.
  intros Hv [Hr Hc]. unfold has_shape, broadcast_mul. rewrite length_map.
  split; [exact Hr|]. apply Forall_fmap. eapply Forall_impl; [exact Hc|].
  intros row Hrow. cbn in *. rewrite length_zip_with, Hrow, Hv. apply Nat.min_id.
Qed.

Lemma np_arange_length (h : Z) : length (np_arange 1 (h + 1)) = Z.to_nat h.
Proof.
  unfold np_arange. rewrite length_map, length_seq. f_equal. lia.
Qed.

Lemma growth_nth (base g : Q) (h : Z) (j : nat) :
  (j < Z.to_nat h)%nat ->
  nth j (map (Qmult base) (map (Qpower (1 + g)) (np_arange 1 (h + 1)))) 0
  = base * (1 + g) ^ (1 + Z.of_nat j).
Proof.
  intros Hj. rewrite nth_lookup. unfold np_arange.
  rewrite !list_lookup_fmap, lookup_seq_lt by lia. reflexivity.
Qed.

Lemma mean_axis0_nil (n : nat) : mean_axis0 n [] = replicate n NaN.
Proof.
  unfold mean_axis0. cbn [map mean]. generalize 0%nat as k.
  induction n as [|n IH]; intros k; [reflexivity|].
  cbn [seq map replicate]. f_equal. apply IH.
Qed.

Lemma mean_column_band (v : list Q) (a : list (list Q)) (rows cols j : nat) (lo hi : Q) :
  length v = cols -> has_shape rows cols a -> entries_within lo hi a ->
  (0 < rows)%nat -> (j < cols)%nat -> 0 <= nth j v 0 ->
  exists m,
    mean (map (fun row => nth j row 0) (broadcast_mul v a)) = Fin m
    /\ nth j v 0 * lo <= m <= nth j v 0 * hi.
Proof.
  intros Hv [Hr Hc] He Hrows Hj Hb.
  rewrite column_broadcast_mul by (rewrite Hv; assumption).
  apply mean_bounds.
  - destruct a; [cbn in Hr; lia | discriminate].
  - unfold entries_within in He. apply Forall_fmap. rewrite Forall_forall in *.
    intros row Hin. specialize (Hc row Hin). specialize (He row Hin). cbn.
    assert (Hx : lo <= nth j row 0 <= hi).
    { rewrite Forall_forall in He. apply He. apply list_elem_of_In, nth_In. lia. }
    destruct Hx. split; nra.
Qed.

Section Simulator.

Variable rng_state : Type.
Variable np_random_seed : Z -> result rng_state.
Variable np_random_uniform :
  Q -> Q -> Z * Z -> rng_state -> result (list (list Q)) * rng_state.

Variables (base_income base_expenses : Q) (time_horizon simulations : Z).
Variables (deviation : Q) (seed : Z) (income_growth expenses_growth : Q).

Let simulate :=
  monte_carlo_simulation rng_state np_random_seed np_random_uniform
    base_income base_expenses time_horizon simulations deviation seed
    income_growth expenses_growth.
Let months := np_arange 1 (time_horizon + 1).
Let income_row := map (Qmult base_income) (map (Qpower (1 + income_growth)) months).
Let expense_row := map (Qmult base_expenses) (map (Qpower (1 + expenses_growth)) months).

Lemma monte_carlo_run (g g' : rng_state) (df : DataFrame) :
  simulate g = (Ok df, g') ->
  exists g1 g2 income_factors expense_factors,
    np_random_seed seed = Ok g1 /\
    np_random_uniform (1 - deviation) (1 + deviation) (simulations, time_horizon) g1
      = (Ok income_factors, g2) /\
    np_random_uniform (1 - deviation) (1 + deviation) (simulations, time_horizon) g2
      = (Ok expense_factors, g') /\
    df = {| month := months;
            avg_income :=
              mean_axis0 (length months) (broadcast_mul income_row income_factors);
            avg_expense :=
              mean_axis0 (length months) (broadcast_mul expense_row expense_factors);
            avg_profit :=
              mean_axis0 (length months)
                (matrix_sub (broadcast_mul income_row income_factors)
                            (broadcast_mul expense_row expense_factors)) |}.
Proof.
  unfold simulate, monte_carlo_simulation.
  destruct (np_random_seed seed) as [g1|e]; [|discriminate].
  destruct (np_random_uniform _ _ _ g1) as [[fi|e] g2] eqn:E1; [|discriminate].
  destruct (np_random_uniform _ _ _ g2) as [[fe|e] g3] eqn:E2; [|discriminate].
  intros H. injection H as <- <-.
  exists g1, g2, fi, fe. repeat split; assumption || reflexivity.
Qed.

(** X22.  Whatever the generator draws, a table the simulator returns has
    one row per month of the horizon, numbered 1, 2, ..., and none for a
    horizon of zero or less. *)
Theorem monte_carlo_table_shape (g g' : rng_state) (df : DataFrame) :
  simulate g = (Ok df, g') ->
  month df = map (fun i => (1 + Z.of_nat i)%Z) (seq 0 (Z.to_nat time_horizon))
  /\ length (avg_income df) = Z.to_nat time_horizon
  /\ length (avg_expense df) = Z.to_nat time_horizon
  /\ length (avg_profit df) = Z.to_nat time_horizon.
Proof.
  intros H. destruct (monte_carlo_run g g' df H) as (g1 & g2 & fi & fe & _ & _ & _ & ->).
  cbn. rewrite !mean_axis0_length. subst months. rewrite np_arange_length.
  split; [|auto]. unfold np_arange. do 3 f_equal. lia.
Qed.

Hypothesis uniform_ok : uniform_draws np_random_uniform.

(** X23.  With at least one trial and draws of the requested shape, every
    month of the table holds numbers, and the average profit is the average
    income minus the average expense. *)
Theorem monte_carlo_profit_column (g g' : rng_state) (df : DataFrame) (j : nat) :
  simulate g = (Ok df, g') ->
  (0 < simulations)%Z -> (j < Z.to_nat time_horizon)%nat ->
  exists income expense profit,
    avg_income df !! j = Some (Fin income) /\
    avg_expense df !! j = Some (Fin expense) /\
    avg_profit df !! j = Some (Fin profit) /\
    profit == income - expense.
Proof.
  intros H Hn Hj.
  destruct (monte_carlo_run g g' df H) as (g1 & g2 & fi & fe & _ & Hi & He & ->).
  destruct (uniform_ok _ _ _ _ _ _ _ Hi) as [Si _].
  destruct (uniform_ok _ _ _ _ _ _ _ He) as [Se _].
  assert (Hlen : length months = Z.to_nat time_horizon) by apply np_arange_length.
  assert (Li : length income_row = Z.to_nat time_horizon)
    by (subst income_row; now rewrite !length_map).
  assert (Le : length expense_row = Z.to_nat time_horizon)
    by (subst expense_row; now rewrite !length_map).
  pose proof (broadcast_mul_shape _ _ _ _ Li Si) as [Ri Ci].
  pose proof (broadcast_mul_shape _ _ _ _ Le Se) as [Re Ce].
  set (A := broadcast_mul income_row fi) in *.
  set (B := broadcast_mul expense_row fe) in *.
  cbn [avg_income avg_expense avg_profit].
  rewrite !mean_axis0_lookup by lia.
  assert (HA : Forall (fun row => (j < length row)%nat) A)
    by (eapply Forall_impl; [exact Ci | cbn; intros; lia]).
  assert (HB : Forall (fun row => (j < length row)%nat) B)
    by (eapply Forall_impl; [exact Ce | cbn; intros; lia]).
  destruct (Qsum_column_sub j A B ltac:(lia) HA HB) as [Hsum Hl].
  assert (Hrows : (0 < length A)%nat) by lia.
  unfold mean.
  destruct A as [|ra A']; [cbn in Hrows; lia|].
  destruct B as [|rb B']; [cbn in Re; cbn in Ri; lia|].
  cbn [matrix_sub zip_with map]. do 3 eexists.
  split; [reflexivity|]. split; [reflexivity|]. split; [reflexivity|].
  cbn [map] in Hsum. unfold matrix_sub in Hsum, Hl. cbn [zip_with map] in Hsum.
  rewrite Hsum. cbn [length] in *. rewrite !length_map.
  rewrite length_zip_with.
  assert (E : length B' = length A') by lia. rewrite E, Nat.min_id.
  field.
  intros Hz. assert (0 < inject_Z (Z.of_nat (S (length A')))).
  { rewrite <- (Zlt_Qlt 0). lia. }
  lra.
Qed.

(** X24.  With at least one trial, a non-negative deviation, non-negative
    base values and growth rates of at least -1, the average income of month
    m lies between base_income * (1 + growth)^m * (1 - deviation) and
    base_income * (1 + growth)^m * (1 + deviation), and likewise the average
    expense of month m. *)
Theorem monte_carlo_band (g g' : rng_state) (df : DataFrame) (j : nat) :
  simulate g = (Ok df, g') ->
  (0 < simulations)%Z -> (j < Z.to_nat time_horizon)%nat ->
  0 <= deviation ->
  0 <= base_income -> 0 <= 1 + income_growth ->
  0 <= base_expenses -> 0 <= 1 + expenses_growth ->
  exists income expense,
    avg_income df !! j = Some (Fin income) /\
    avg_expense df !! j = Some (Fin expense) /\
    base_income * (1 + income_growth) ^ (1 + Z.of_nat j) * (1 - deviation) <= income /\
    income <= base_income * (1 + income_growth) ^ (1 + Z.of_nat j) * (1 + deviation) /\
    base_expenses * (1 + expenses_growth) ^ (1 + Z.of_nat j) * (1 - deviation)
      <= expense /\
    expense <= base_expenses * (1 + expenses_growth) ^ (1 + Z.of_nat j) * (1 + deviation).
Proof.
  intros H Hn Hj Hd Hbi Hgi Hbe Hge.
  destruct (monte_carlo_run g g' df H) as (g1 & g2 & fi & fe & _ & Hi & He & ->).
  assert (Hlohi : 1 - deviation <= 1 + deviation) by lra.
  destruct (uniform_ok _ _ _ _ _ _ _ Hi) as [Si Wi]. specialize (Wi Hlohi).
  destruct (uniform_ok _ _ _ _ _ _ _ He) as [Se We]. specialize (We Hlohi).
  assert (Hlen : length months = Z.to_nat time_horizon) by apply np_arange_length.
  assert (Li : length income_row = Z.to_nat time_horizon)
    by (subst income_row; now rewrite !length_map).
  assert (Le : length expense_row = Z.to_nat time_horizon)
    by (subst expense_row; now rewrite !length_map).
  assert (Ni : nth j income_row 0 = base_income * (1 + income_growth) ^ (1 + Z.of_nat j))
    by (apply growth_nth; exact Hj).
  assert (Ne : nth j expense_row 0
               = base_expenses * (1 + expenses_growth) ^ (1 + Z.of_nat j))
    by (apply growth_nth; exact Hj).
  assert (Pi : 0 <= nth j income_row 0).
  { rewrite Ni. apply Qmult_le_0_compat; [exact Hbi | apply Qpower_0_le; exact Hgi]. }
  assert (Pe : 0 <= nth j expense_row 0).
  { rewrite Ne. apply Qmult_le_0_compat; [exact Hbe | apply Qpower_0_le; exact Hge]. }
  destruct (mean_column_band income_row fi _ _ j _ _ Li Si Wi ltac:(lia) Hj Pi)
    as (mi & Mi & Bi1 & Bi2).
  destruct (mean_column_band expense_row fe _ _ j _ _ Le Se We ltac:(lia) Hj Pe)
    as (me & Me & Be1 & Be2).
  exists mi, me. cbn [avg_income avg_expense].
  rewrite !mean_axis0_lookup by lia. rewrite Mi, Me, <- Ni, <- Ne.
  repeat split; assumption.
Qed.

(** X25.  With a trial count of zero the simulator does not fail: the
    three averaged columns hold NaN in every month. *)
Theorem monte_carlo_no_trials (g g' : rng_state) (df : DataFrame) :
  simulate g = (Ok df, g') -> simulations = 0%Z ->
  avg_income df = replicate (Z.to_nat time_horizon) NaN
  /\ avg_expense df = replicate (Z.to_nat time_horizon) NaN
  /\ avg_profit df = replicate (Z.to_nat time_horizon) NaN.
Proof.
  intros H Hn.
  destruct (monte_carlo_run g g' df H) as (g1 & g2 & fi & fe & _ & Hi & He & ->).
  destruct (uniform_ok _ _ _ _ _ _ _ Hi) as [[Si _] _].
  destruct (uniform_ok _ _ _ _ _ _ _ He) as [[Se _] _].
  rewrite Hn in Si, Se. cbn in Si, Se.
  apply nil_length_inv in Si, Se. subst fi fe.
  cbn [avg_income avg_expense avg_profit broadcast_mul matrix_sub map zip_with].
  rewrite !mean_axis0_nil. subst months. now rewrite np_arange_length.
Qed.

End Simulator.

Lemma counting_uniform_draws : uniform_draws counting_uniform.
Proof.
  intros low high rows cols g a g' H. unfold counting_uniform in H.
  destruct ((rows <? 0) || (cols <? 0))%Z; [discriminate|].
  injection H as <- <-. split.
  - split; [apply length_replicate|].
    apply Forall_replicate. apply length_replicate.
  - intros Hle. apply Forall_replicate, Forall_replicate. split.
    + apply Qle_shift_div_l; [reflexivity | lra].
    + apply Qle_shift_div_r; [reflexivity | lra].
Qed.

Lemma counting_run :
  exists df g',
    monte_carlo_simulation Z counting_seed counting_uniform
      1000 400 3 2 0.1 42 0 0 7%Z = (Ok df, g').
Proof. do 2 eexists. reflexivity. Qed.

Lemma counting_run_no_trials :
  exists df g',
    monte_carlo_simulation Z counting_seed counting_uniform
      1000 400 3 0 0.1 42 0 0 7%Z = (Ok df, g').
Proof. do 2 eexists. reflexivity. Qed.

Lemma monte_carlo_table_shape_witness :
  exists df,
    fst (monte_carlo_simulation Z counting_seed counting_uniform
           1000 400 3 2 0.1 42 0 0 7%Z) = Ok df
    /\ month df = [1; 2; 3]%Z /\ length (avg_profit df) = 3%nat.
Proof.
  destruct counting_run as (df & g' & H).
  destruct (monte_carlo_table_shape _ _ _ _ _ _ _ _ _ _ _ _ _ _ H) as (Hm & _ & _ & Hp).
  exists df. rewrite H. split; [reflexivity|]. split; [exact Hm | exact Hp].
Defined.

Lemma monte_carlo_profit_column_witness :
  exists df income expense profit,
    fst (monte_carlo_simulation Z counting_seed counting_uniform
           1000 400 3 2 0.1 42 0 0 7%Z) = Ok df
    /\ avg_income df !! 0%nat = Some (Fin income)
    /\ avg_expense df !! 0%nat = Some (Fin expense)
    /\ avg_profit df !! 0%nat = Some (Fin profit)
    /\ profit == income - expense.
Proof.
  destruct counting_run as (df & g' & H).
  destruct (monte_carlo_profit_column _ _ _ _ _ _ _ _ _ _ _ counting_uniform_draws
              _ _ _ 0%nat H) as (i & e & p & Hi & He & Hp & Heq);
    [reflexivity | cbn; lia |].
  exists df, i, e, p. rewrite H. repeat split; assumption.
Defined.

Lemma monte_carlo_band_witness :
  exists df income expense,
    fst (monte_carlo_simulation Z counting_seed counting_uniform
           1000 400 3 2 0.1 42 0 0 7%Z) = Ok df
    /\ avg_income df !! 0%nat = Some (Fin income)
    /\ avg_expense df !! 0%nat = Some (Fin expense)
    /\ 900 <= income <= 1100 /\ 360 <= expense <= 440.
Proof.
  destruct counting_run as (df & g' & H).
  destruct (monte_carlo_band _ _ _ _ _ _ _ _ _ _ _ counting_uniform_draws
              _ _ _ 0%nat H) as (i & e & Hi & He & B1 & B2 & B3 & B4);
    [reflexivity | cbn; lia | discriminate | discriminate | discriminate
    | discriminate | discriminate |].
  exists df, i, e. rewrite H. split; [reflexivity|]. split; [exact Hi|].
  split; [exact He|].
  assert (E1 : 1000 * (1 + 0) ^ (1 + Z.of_nat 0) * (1 - 0.1) == 900) by reflexivity.
  assert (E2 : 1000 * (1 + 0) ^ (1 + Z.of_nat 0) * (1 + 0.1) == 1100) by reflexivity.
  assert (E3 : 400 * (1 + 0) ^ (1 + Z.of_nat 0) * (1 - 0.1) == 360) by reflexivity.
  assert (E4 : 400 * (1 + 0) ^ (1 + Z.of_nat 0) * (1 + 0.1) == 440) by reflexivity.
  rewrite E1 in B1. rewrite E2 in B2. rewrite E3 in B3. rewrite E4 in B4.
  repeat split; assumption.
Defined.

Lemma monte_carlo_no_trials_witness :
  exists df,
    fst (monte_carlo_simulation Z counting_seed counting_uniform
           1000 400 3 0 0.1 42 0 0 7%Z) = Ok df
    /\ avg_income df = [NaN; NaN; NaN] /\ avg_profit df = [NaN; NaN; NaN].
Proof.
  destruct counting_run_no_trials as (df & g' & H).
  destruct (monte_carlo_no_trials _ _ _ _ _ _ _ _ _ _ _ counting_uniform_draws
              _ _ _ H eq_refl) as (Hi & _ & Hp).
  exists df. rewrite H. split; [reflexivity|]. split; [exact Hi | exact Hp].
Defined.

(** ** normalize_shares *)

Lemma fold_left_Qplus (xs : list Q) (a : Q) : fold_left Qplus xs a == a + Qsum xs.
Proof.
  revert a. induction xs as [|x xs IH]; intros a; cbn [fold_left].
  - rewrite Qsum_nil. ring.
  - rewrite IH, Qsum_cons. ring.
Qed.

Lemma py_sum_Qsum (xs : list Q) : py_sum xs == Qsum xs.
Proof. unfold py_sum. rewrite fold_left_Qplus. ring. Qed.

Lemma mapM_total {A B : Type} (f : A -> result B) (g : A -> B) (l : list A) :
  (forall x, x ∈ l -> f x = Ok (g x)) -> mapM f l = Ok (map g l).
Proof.
  induction l as [|x l IH]; intros H; [reflexivity|].
  cbn. rewrite (H x) by left. cbn. rewrite IH; [reflexivity|].
  intros y Hy. apply H. now right.
Qed.

Lemma Qsum_nonneg (l : list Q) : Forall (fun x => 0 <= x) l -> 0 <= Qsum l.
Proof.
  induction 1 as [|x l Hx Hl IH]; [rewrite Qsum_nil; lra|]. rewrite Qsum_cons. lra.
Qed.

Lemma Qsum_elem_le (l : list Q) (x : Q) :
  Forall (fun y => 0 <= y) l -> x ∈ l -> x <= Qsum l.
Proof.
  induction 1 as [|y l Hy Hl IH]; intros Hin.
  - inversion Hin.
  - rewrite Qsum_cons. pose proof (Qsum_nonneg l Hl).
    apply elem_of_cons in Hin as [->|Hin]; [lra|]. specialize (IH Hin). lra.
Qed.

Lemma Qsum_div (l : list Q) (t : Q) :
  ~ t == 0 -> Qsum (map (fun x => x / t) l) == Qsum l / t.
Proof.
  intros Ht. induction l as [|x l IH]; cbn [map].
  - rewrite Qsum_nil. field. exact Ht.
  - rewrite !Qsum_cons, IH. field. exact Ht.
Qed.

Lemma setitem_keys_elem (k : string) (v : Q) (d : list (string * Q)) :
  (k, v) ∈ setitem k v d.
Proof.
  induction d as [|[k' v'] d IH]; cbn; [left|].
  destruct (String.eqb_spec k' k) as [->|Hne]; [left | right; exact IH].
Qed.

Lemma setitem_values (k : string) (v : Q) (d : list (string * Q)) (P : Q -> Prop) :
  P v -> Forall (fun kv => P (snd kv)) d -> Forall (fun kv => P (snd kv)) (setitem k v d).
Proof.
  intros Hv. induction 1 as [|[k' v'] d Hx Hd IH]; cbn.
  - repeat constructor. exact Hv.
  - destruct (String.eqb k' k); constructor; assumption.
Qed.

Lemma filter_nonempty_of_positive_sum (l : list (string * Q)) :
  0 < py_sum (map snd l) -> (0 < length l)%nat.
Proof.
  rewrite py_sum_Qsum. destruct l; cbn [map length]; [rewrite Qsum_nil; lra | lia].
Qed.

Lemma normalize_shares_first_step (k : string) (new_value n : Q) (d1 : list (string * Q))
  (total_other : Q) :
  (0 < total_other -> ~ n == 0) ->
  (if ltb 0 total_other
   then mapM (fun kv : string * Q =>
                if negb (String.eqb (fst kv) k)
                then part ← new_value // n; Ok (fst kv, Py.max 0 (snd kv - part))
                else Ok kv) d1
   else Ok d1)
  = Ok (if ltb 0 total_other
        then map (fun kv : string * Q =>
                    if negb (String.eqb (fst kv) k)
                    then (fst kv, Py.max 0 (snd kv - new_value / n)) else kv) d1
        else d1).
Proof.
  intros Hn. destruct (ltb 0 total_other) eqn:E; [|reflexivity].
  apply ltb_true in E. specialize (Hn E).
  apply (mapM_total _ (fun kv : string * Q =>
           if negb (String.eqb (fst kv) k)
           then (fst kv, Py.max 0 (snd kv - new_value / n)) else kv)).
  intros kv _. destruct (negb _); [|reflexivity].
  rewrite div_ok by exact Hn. reflexivity.
Qed.

Lemma normalize_shares_second_step (d2 : list (string * Q)) :
  (if ltb 0 (py_sum (map snd d2))
   then mapM (fun kv : string * Q =>
                share ← snd kv // py_sum (map snd d2); Ok (fst kv, share)) d2
   else Ok d2)
  = Ok (if ltb 0 (py_sum (map snd d2))
        then map (fun kv : string * Q => (fst kv, snd kv / py_sum (map snd d2))) d2
        else d2).
Proof.
  destruct (ltb 0 (py_sum (map snd d2))) eqn:E; [|reflexivity].
  apply ltb_true in E.
  apply (mapM_total _ (fun kv : string * Q => (fst kv, snd kv / py_sum (map snd d2)))).
  intros kv _. rewrite div_ok by lra. reflexivity.
Qed.

Lemma normalize_shares_eq (k : string) (new_value : Q) (shares : list (string * Q)) :
  normalize_shares k new_value shares
  = Ok (rescaled (rebalanced k new_value (setitem k new_value shares))).
Proof.
  unfold normalize_shares, rebalanced, rescaled.
  rewrite normalize_shares_first_step.
  - cbn [mbind result_bind]. apply normalize_shares_second_step.
  - intros H. apply filter_nonempty_of_positive_sum in H.
    rewrite length_map. apply inject_Z_pos_nonzero. lia.
Qed.

Lemma max_zero_nonneg (x : Q) : 0 <= Py.max 0 x.
Proof. unfold Py.max. destruct (ltb 0 x) eqn:E; cmp_to_prop; lra. Qed.

Lemma rebalanced_keys (k : string) (v : Q) (d : list (string * Q)) :
  map fst (rebalanced k v d) = map fst d.
Proof.
  unfold rebalanced. destruct (ltb 0 _); [|reflexivity].
  rewrite map_map. apply map_ext. intros kv. now destruct (negb _).
Qed.

Lemma rescaled_keys (d : list (string * Q)) : map fst (rescaled d) = map fst d.
Proof.
  unfold rescaled. destruct (ltb 0 _); [|reflexivity]. now rewrite map_map.
Qed.

Lemma rebalanced_nonneg (k : string) (v : Q) (d : list (string * Q)) :
  Forall (fun kv => 0 <= snd kv) d -> Forall (fun kv => 0 <= snd kv) (rebalanced k v d).
Proof.
  intros H. unfold rebalanced. destruct (ltb 0 _); [|exact H].
  apply Forall_fmap. eapply Forall_impl; [exact H|].
  intros kv Hkv. cbn. destruct (negb _); [apply max_zero_nonneg | exact Hkv].
Qed.

Lemma rebalanced_keeps_changed (k : string) (v : Q) (d : list (string * Q)) :
  (k, v) ∈ d -> (k, v) ∈ rebalanced k v d.
Proof.
  intros H. unfold rebalanced. destruct (ltb 0 _); [|exact H].
  apply list_elem_of_fmap. exists (k, v). split; [|exact H].
  cbn. now rewrite String.eqb_refl.
Qed.

Lemma normalize_shares_unit (changed_share_key : string) (new_value : Q)
  (shares : list (string * Q)) :
  Forall (fun kv => 0 <= snd kv) shares -> 0 < new_value ->
  exists r,
    normalize_shares changed_share_key new_value shares = Ok r
    /\ map fst r = map fst (setitem changed_share_key new_value shares)
    /\ Qsum (map snd r) == 1
    /\ Forall (fun kv => 0 <= snd kv <= 1) r.
Proof.
  intros Hnn Hv. rewrite normalize_shares_eq. eexists. split; [reflexivity|].
  split; [now rewrite rescaled_keys, rebalanced_keys|].
  set (d1 := setitem changed_share_key new_value shares).
  assert (H1 : Forall (fun kv => 0 <= snd kv) d1)
    by (apply (setitem_values _ _ _ (fun x => 0 <= x)); [lra | exact Hnn]).
  pose proof (setitem_keys_elem changed_share_key new_value shares) as Hin1.
  fold d1 in Hin1.
  pose proof (rebalanced_nonneg changed_share_key new_value d1 H1) as H2.
  pose proof (rebalanced_keeps_changed changed_share_key new_value d1 Hin1) as Hin2.
  set (d2 := rebalanced changed_share_key new_value d1) in *.
  assert (Hvals : Forall (fun x => 0 <= x) (map snd d2)) by (now apply Forall_fmap).
  assert (Hin : new_value ∈ map snd d2).
  { apply list_elem_of_fmap. exists (changed_share_key, new_value). split; [reflexivity | exact Hin2]. }
  pose proof (Qsum_elem_le _ _ Hvals Hin) as Hle.
  assert (Ht : 0 < py_sum (map snd d2)) by (rewrite py_sum_Qsum; lra).
  unfold rescaled. apply ltb_true in Ht as E. rewrite E.
  split.
  - rewrite map_map. cbn [snd].
    rewrite <- (map_map snd (fun x => x / py_sum (map snd d2))).
    rewrite Qsum_div by lra. rewrite py_sum_Qsum in *. field. lra.
  - apply Forall_fmap. rewrite Forall_forall. intros kv Hkv. cbn.
    assert (Hx : snd kv ∈ map snd d2) by (apply list_elem_of_fmap; eauto).
    pose proof (Qsum_elem_le _ _ Hvals Hx) as Hxle.
    rewrite Forall_forall in H2. specialize (H2 kv Hkv). cbn in H2.
    rewrite <- py_sum_Qsum in Hxle.
    split.
    + apply Qle_shift_div_l; [exact Ht | lra].
    + apply Qle_shift_div_r; [exact Ht | lra].
Qed.



(** X26.  [normalize_shares] never raises, for any dictionary, key and
    value: neither division meets a zero divisor.  It keeps the keys (adding
    the changed key when it is new), and the shares it leaves add up to
    exactly 1 unless their sum before the last pass was zero or negative. *)
Theorem normalize_shares_total (changed_share_key : string) (new_value : Q)
  (shares : list (string * Q)) :
  exists r,
    normalize_shares changed_share_key new_value shares = Ok r
    /\ map fst r = map fst (setitem changed_share_key new_value shares)
    /\ (Qsum (map snd r) == 1 \/ Qsum (map snd r) <= 0).
Proof.
  rewrite normalize_shares_eq. eexists. split; [reflexivity|].
  split; [now rewrite rescaled_keys, rebalanced_keys|].
  set (d2 := rebalanced _ _ _). unfold rescaled.
  destruct (ltb 0 (py_sum (map snd d2))) eqn:E; cmp_to_prop.
  - left. rewrite map_map. cbn [snd].
    rewrite <- (map_map snd (fun x => x / py_sum (map snd d2))).
    rewrite Qsum_div by lra. rewrite py_sum_Qsum in *. field. lra.
  - right. now rewrite py_sum_Qsum in E.
Qed.

(** X27.  When no share is negative and the new value is positive, the
    shares after [normalize_shares] add up to exactly 1 and each lies between
    0 and 1. *)
Theorem normalize_shares_sums_to_one (changed_share_key : string) (new_value : Q)
  (shares : list (string * Q)) :
  Forall (fun kv => 0 <= snd kv) shares -> 0 < new_value ->
  exists r,
    normalize_shares changed_share_key new_value shares = Ok r
    /\ Qsum (map snd r) == 1
    /\ Forall (fun kv => 0 <= snd kv <= 1) r.
Proof.
  intros Hnn Hv.
  destruct (normalize_shares_unit changed_share_key new_value shares Hnn Hv)
    as (r & Hrun & _ & Hsum & Hrange).
  exists r. split; [exact Hrun|]. split; [exact Hsum | exact Hrange].
Qed.

Lemma normalize_shares_sums_to_one_witness :
  exists r,
    normalize_shares "storage_share" 0.5 initial_shares = Ok r
    /\ Qsum (map snd r) == 1
    /\ Forall (fun kv => 0 <= snd kv <= 1) r.
Proof.
  apply normalize_shares_sums_to_one; [|reflexivity].
  repeat constructor; discriminate.
Defined.


